(** * net_queue: request framing, result hand-off and connection dispatch

    A shallow embedding of [net_queue.py]: the classes [NetMessage],
    [TcpServer], [Connection] and [Network] become records, their methods
    become programs of a small state/exception/trace monad, and what the
    operating system, the peers and the other threads do is passed in
    explicitly. *)

From Stdlib Require Import ZArith String Ascii Lia.
From stdpp Require Import base option list functions strings.

Local Open Scope Z_scope.

(** ** Python strings

    A [str] is a Rocq [string]; socket data is ASCII ([TcpSocket.recv]
    decodes with the ascii codec).  Positions are Python integers, so
    they are in [Z] and [-1] is the "not found" answer of [find]. *)

Definition LF : ascii := "010"%char.
Definition CR : ascii := "013"%char.

Definition chr (c : ascii) : string := String c EmptyString.

(** [len(s)] *)
Definition len (s : string) : Z := Z.of_nat (String.length s).
Definition len_list {A} (l : list A) : Z := Z.of_nat (length l).

(** [s.replace(c, empty)] for a one-character [c]: every [c] is dropped. *)
Fixpoint remove_char (c : ascii) (s : string) : string :=
  match s with
  | EmptyString => EmptyString
  | String a s' =>
      if Ascii.eqb a c then remove_char c s' else String a (remove_char c s')
  end.

(** [s.find(sub)], counting positions from [i]. *)
Fixpoint find_from (sub s : string) (i : Z) : Z :=
  if String.prefix sub s then i
  else match s with
       | EmptyString => -1
       | String _ s' => find_from sub s' (i + 1)
       end.

Definition find (s sub : string) : Z := find_from sub s 0.

(** [s.rfind(sub)]: the highest position, counting from [i]. *)
Fixpoint rfind_from (sub s : string) (i : Z) : Z :=
  match s with
  | EmptyString => if String.prefix sub s then i else -1
  | String _ s' =>
      let r := rfind_from sub s' (i + 1) in
      if r =? -1 then (if String.prefix sub s then i else -1) else r
  end.

Definition rfind (s sub : string) : Z := rfind_from sub s 0.

(** [s[:stop]], with Python's reading of a negative or too large [stop]. *)
Definition slice_to (s : string) (stop : Z) : string :=
  let n := len s in
  let stop' := if stop <? 0 then Z.max (stop + n) 0 else Z.min stop n in
  String.substring 0 (Z.to_nat stop') s.

(** [c in s] for a character. *)
Fixpoint contains_char (c : ascii) (s : string) : bool :=
  match s with
  | EmptyString => false
  | String a s' => Ascii.eqb a c || contains_char c s'
  end.

(** ** A model of [urllib.parse.unquote]

    The function belongs to Python's library, not to this repository: the
    framer is embedded over an arbitrary [unquote], and the worked
    examples use the model below.  It decodes [%xx] as the library does:
    a string without [%] is returned as it is, a [%] followed by two
    hexadecimal digits becomes the byte they denote, any other [%] stays.
    Bytes of [0x80] and more are kept as bytes, so the model stands for
    the library on escapes that decode to ASCII. *)

Definition hex_val (c : ascii) : option N :=
  let n := N_of_ascii c in
  if ((48 <=? n) && (n <=? 57))%N then Some (n - 48)%N
  else if ((65 <=? n) && (n <=? 70))%N then Some (n - 55)%N
  else if ((97 <=? n) && (n <=? 102))%N then Some (n - 87)%N
  else None.

Fixpoint unquote_escapes (s : string) : string :=
  match s with
  | EmptyString => EmptyString
  | String c s' =>
      if Ascii.eqb c "%" then
        match s' with
        | String h1 (String h2 rest) =>
            match hex_val h1, hex_val h2 with
            | Some a, Some b =>
                String (ascii_of_N (16 * a + b)) (unquote_escapes rest)
            | _, _ => String c (unquote_escapes s')
            end
        | _ => String c (unquote_escapes s')
        end
      else String c (unquote_escapes s')
  end.

Definition unquote_model (s : string) : string :=
  if contains_char "%" s then unquote_escapes s else s.

(** ** Programs: state, exceptions and a trace of events *)

Inductive exn : Type :=
  | OSError (errno : Z)
  | OtherError (name : string).

Inductive result (A : Type) : Type :=
  | Ok (a : A)
  | Raise (e : exn).
Arguments Ok {A} a.
Arguments Raise {A} e.

Definition Prog (E S A : Type) : Type := S -> result A * S * list E.

Section Prog.
Context {E S : Type}.

Definition ret {A} (a : A) : Prog E S A := fun s => (Ok a, s, []).

Definition bind {A B} (c : Prog E S A) (k : A -> Prog E S B) : Prog E S B :=
  fun s =>
    match c s with
    | (Ok a, s1, t1) =>
        match k a s1 with
        | (r, s2, t2) => (r, s2, t1 ++ t2)
        end
    | (Raise e, s1, t1) => (Raise e, s1, t1)
    end.

Definition raise {A} (e : exn) : Prog E S A := fun s => (Raise e, s, []).

Definition get_self : Prog E S S := fun s => (Ok s, s, []).
Definition put_self (s : S) : Prog E S unit := fun _ => (Ok tt, s, []).
Definition emit (e : E) : Prog E S unit := fun s => (Ok tt, s, [e]).
End Prog.

Declare Scope prog_scope.
Delimit Scope prog_scope with prog.
Notation "x <- c ;; k" := (bind c (fun x => k))
  (at level 100, c at level 99, k at level 200, only parsing,
   right associativity) : prog_scope.
Notation "c ;; k" := (bind c (fun _ => k))
  (at level 100, k at level 200, only parsing, right associativity) : prog_scope.
Local Open Scope prog_scope.

(** What a run returns, the state it leaves and the events it produced. *)
Definition value_of {A S E} (r : result A * S * list E) : result A := r.1.1.
Definition state_of {A S E} (r : result A * S * list E) : S := r.1.2.
Definition trace_of {A S E} (r : result A * S * list E) : list E := r.2.

(** ** class NetMessage *)

Definition thread_id : Type := nat.

(** A [datetime.datetime], as a point on a time line. *)
Definition datetime : Type := Z.

(** [_condition] is the [threading.Condition]: the threads blocked in its
    [wait()], oldest first.  Its lock shows in the trace. *)
Record NetMessage : Type := mkNetMessage {
  _is_http : bool;
  _condition : list thread_id;
  _listening : bool;
  _listen_since : option datetime;
  _disconnect : bool;
  _request : string;
  _result : option string
}.

Inductive field : Type :=
  | F_request | F_result | F_listening | F_listen_since | F_disconnect.

Inductive msg_event : Type :=
  | Acquire (t : thread_id)
  | Release (t : thread_id)
  | Store (f : field)
  | CvWait (t : thread_id)
  | CvWoken (t : thread_id) (notified : bool)
  | CvNotify (woken : list thread_id).

(** [NetMessage.__init__] *)
Definition NetMessage_init (is_http : bool) : NetMessage :=
  {| _is_http := is_http;
     _condition := [];
     _listening := false;
     _listen_since := None;
     _disconnect := false;
     _request := EmptyString;
     _result := None |}.

Definition with_waiters (w : list thread_id) (m : NetMessage) : NetMessage :=
  {| _is_http := _is_http m; _condition := w; _listening := _listening m;
     _listen_since := _listen_since m; _disconnect := _disconnect m;
     _request := _request m; _result := _result m |}.

Definition with_request (v : string) (m : NetMessage) : NetMessage :=
  {| _is_http := _is_http m; _condition := _condition m;
     _listening := _listening m; _listen_since := _listen_since m;
     _disconnect := _disconnect m; _request := v; _result := _result m |}.

Definition with_result (v : option string) (m : NetMessage) : NetMessage :=
  {| _is_http := _is_http m; _condition := _condition m;
     _listening := _listening m; _listen_since := _listen_since m;
     _disconnect := _disconnect m; _request := _request m; _result := v |}.

Definition with_listening (v : bool) (m : NetMessage) : NetMessage :=
  {| _is_http := _is_http m; _condition := _condition m; _listening := v;
     _listen_since := _listen_since m; _disconnect := _disconnect m;
     _request := _request m; _result := _result m |}.

Definition with_listen_since (v : option datetime) (m : NetMessage) : NetMessage :=
  {| _is_http := _is_http m; _condition := _condition m;
     _listening := _listening m; _listen_since := v;
     _disconnect := _disconnect m; _request := _request m;
     _result := _result m |}.

Definition with_disconnect (v : bool) (m : NetMessage) : NetMessage :=
  {| _is_http := _is_http m; _condition := _condition m;
     _listening := _listening m; _listen_since := _listen_since m;
     _disconnect := v; _request := _request m; _result := _result m |}.

Definition MsgProg (A : Type) : Type := Prog msg_event NetMessage A.

(** Attribute assignments [self._x = v]. *)
Definition set_request (v : string) : MsgProg unit :=
  fun m => (Ok tt, with_request v m, [Store F_request]).
Definition set__result (v : option string) : MsgProg unit :=
  fun m => (Ok tt, with_result v m, [Store F_result]).
Definition set_listening (v : bool) : MsgProg unit :=
  fun m => (Ok tt, with_listening v m, [Store F_listening]).
Definition set_listen_since (v : option datetime) : MsgProg unit :=
  fun m => (Ok tt, with_listen_since v m, [Store F_listen_since]).
Definition set_disconnect (v : bool) : MsgProg unit :=
  fun m => (Ok tt, with_disconnect v m, [Store F_disconnect]).

(** [with self._condition:], by thread [me]: the lock is taken before the
    body and given back after it, also when the body raises. *)
Definition with_condition {A} (me : thread_id) (body : MsgProg A) : MsgProg A :=
  fun m =>
    match body m with
    | (r, m', t) => (r, m', Acquire me :: t ++ [Release me])
    end.

(** [self._condition.wait()], without timeout: the caller joins the
    waiters, gives the lock up and blocks; [others] is what the other
    threads do to the message in the meantime; then the caller has the
    lock again.  The call returns once a [notify] has taken the caller
    off the waiters, and not before: the event [CvWoken me true].  The
    function is total, so it also has a value when [others] leaves the
    caller among the waiters, [CvWoken me false]; that value is no
    return of the call, the thread being still blocked then, and what
    is stated about the value that [get_result] returns is stated for
    the notified wait. *)
Definition condition_wait (me : thread_id) (others : NetMessage -> NetMessage)
  : MsgProg unit :=
  fun m =>
    let blocked := with_waiters (_condition m ++ [me]) m in
    let m' := others blocked in
    let notified := negb (bool_decide (me ∈ _condition m')) in
    (Ok tt,
     with_waiters (List.remove Nat.eq_dec me (_condition m')) m',
     [CvWait me; CvWoken me notified]).

(** [self._condition.notify()]: the oldest waiter, if any, is woken. *)
Definition condition_notify : MsgProg unit :=
  fun m =>
    (Ok tt, with_waiters (drop 1 (_condition m)) m,
     [CvNotify (take 1 (_condition m))]).

(** What a program does to the state, for use as [others]. *)
Definition effect {E S A} (c : Prog E S A) : S -> S := fun s => state_of (c s).

Section NetMessage.
(** [urllib.parse.unquote] *)
Variable unquote : string -> string.

(** [NetMessage.is_listening]: a tuple. *)
Definition is_listening (self : NetMessage) : bool * option datetime :=
  (_listening self, _listen_since self).

(** [NetMessage.is_disconnect] *)
Definition is_disconnect (self : NetMessage) : bool := _disconnect self.

(** [NetMessage.add] *)
Definition add (request : string) : MsgProg bool :=
  self <- get_self ;;
  set_request (_request self +:+ remove_char CR request) ;;
  self <- get_self ;;
  let pos :=
    find (_request self)
         (if _is_http self then String LF (chr LF) else chr LF) in
  if negb (pos =? -1) then
    (if _is_http self then
       let pos := find (_request self) (chr LF) in
       set_request (slice_to (_request self) pos) ;;
       self <- get_self ;;
       let pos := rfind (_request self) " HTTP/" in
       (if negb (pos =? -1)
        then set_request (slice_to (_request self) pos)
        else ret tt) ;;
       self <- get_self ;;
       set_request (unquote (_request self))
     else if pos + 1 =? len (_request self) then
       set_request (slice_to (_request self) pos)
     else ret tt) ;;
    ret true
  else
    ret ((len (_request self) =? 0) && _listening self).

(** [NetMessage.get_result], called by thread [me]. *)
Definition get_result (me : thread_id) (others : NetMessage -> NetMessage)
  : MsgProg (option string) :=
  with_condition me (
    self <- get_self ;;
    (if _result self is None then condition_wait me others else ret tt) ;;
    set_request EmptyString ;;
    self <- get_self ;;
    let ret_ := _result self in
    set__result None ;;
    ret ret_).

(** [NetMessage.set_result], called by thread [me]. *)
Definition set_result (me : thread_id) (result : string) (listening : bool)
    (listen_until : option datetime) (disconnect : bool) : MsgProg unit :=
  with_condition me (
    set__result (Some result) ;;
    set_listening listening ;;
    set_listen_since listen_until ;;
    set_disconnect disconnect ;;
    condition_notify).
End NetMessage.

(** A call of [set_result] by another thread: its caller and its four
    arguments.  No other method notifies the condition of a message. *)
Record post : Type := mk_post {
  post_by : thread_id;
  post_result : string;
  post_listening : bool;
  post_listen_until : option datetime;
  post_disconnect : bool
}.

Definition run_post (p : post) : NetMessage -> NetMessage :=
  effect (set_result (post_by p) (post_result p) (post_listening p)
                     (post_listen_until p) (post_disconnect p)).


Definition CRLF : string := String CR (chr LF).

(** ** Operating-system calls

    A call into the operating system is an event of the trace; what the
    system answers is given from outside. *)

Inductive sys_event : Type :=
  | Socket
  | Setsockopt (fd : Z)
  | Bind (fd : Z) (addr : string) (port : Z)
  | Listen (fd : Z) (backlog : Z)
  | Accept (fd : Z)
  | Close (fd : Z)
  | Pipe
  | PipeWrite (fd : Z)
  | LogError.

Definition syscall {E S A} (answer : result A) (e : E) : Prog E S A :=
  fun s => (answer, s, [e]).

(** [try: body except OSError as ex: handler ex]; another exception
    passes through. *)
Definition try_OSError {E S A} (body : Prog E S A)
    (handler : exn -> Prog E S A) : Prog E S A :=
  fun s =>
    match body s with
    | (Raise (OSError n), s1, t1) =>
        match handler (OSError n) s1 with
        | (r, s2, t2) => (r, s2, t1 ++ t2)
        end
    | other => other
    end.

(** ** class Notify *)

Record Notify : Type := mkNotify { _recvfd : Z; _sendfd : Z }.

(** [Notify.__init__]: [os.pipe()] answers with the two descriptors. *)
Definition Notify_init {S} (pipe : result (Z * Z)) : Prog sys_event S Notify :=
  fds <- syscall pipe Pipe ;;
  ret {| _recvfd := fds.1; _sendfd := fds.2 |}.

Definition notify_fd (self : Notify) : Z := _recvfd self.

(** [Notify.notify], the number of bytes written dropped. *)
Definition notify {S} (self : Notify) : Prog sys_event S unit :=
  emit (PipeWrite (_sendfd self)).

(** ** class TcpSocket: the accepted socket, by its descriptor *)

Record TcpSocket : Type := mkTcpSocket { fileno : Z }.

(** ** class TcpServer *)

Module TcpServer.

Record t : Type := mk {
  _port : Z;
  _addr : string;
  _backlog : Z;
  _listening : bool;
  _socket : option Z
}.

(** [TcpServer.__init__] *)
Definition init (port : Z) (addr : string) (backlog : Z) : t :=
  {| _port := port;
     _addr := addr;
     _backlog := if backlog >=? 0 then backlog else 0;
     _listening := false;
     _socket := None |}.

Definition set_socket (v : option Z) : Prog sys_event t unit :=
  fun s =>
    (Ok tt,
     {| _port := _port s; _addr := _addr s; _backlog := _backlog s;
        _listening := _listening s; _socket := v |}, []).

Definition set_listening (v : bool) : Prog sys_event t unit :=
  fun s =>
    (Ok tt,
     {| _port := _port s; _addr := _addr s; _backlog := _backlog s;
        _listening := v; _socket := _socket s |}, []).

(** What the system answers to the calls of one [start]. *)
Record start_env : Type := mk_start_env {
  socket_answer : result Z;
  setsockopt_answer : result unit;
  bind_answer : result unit;
  listen_answer : result unit
}.

(** [TcpServer.start] *)
Definition start (env : start_env) : Prog sys_event t unit :=
  self <- get_self ;;
  if _listening self then ret tt
  else
    try_OSError
      (fd <- syscall (socket_answer env) Socket ;;
       set_socket (Some fd) ;;
       syscall (setsockopt_answer env) (Setsockopt fd) ;;
       self <- get_self ;;
       syscall (bind_answer env) (Bind fd (_addr self) (_port self)) ;;
       syscall (listen_answer env) (Listen fd (_backlog self)) ;;
       set_listening true)
      (fun ex =>
         emit LogError ;;
         self <- get_self ;;
         (if _socket self is Some fd then emit (Close fd) else ret tt) ;;
         set_socket None ;;
         raise ex).

(** [TcpServer.new_socket]; [accept_answer] is what [accept()] on the
    given listening descriptor answers. *)
Definition new_socket (accept_answer : Z -> result Z)
  : Prog sys_event t (option TcpSocket) :=
  self <- get_self ;;
  if negb (_listening self) then ret None
  else
    try_OSError
      (match _socket self with
       | Some fd =>
           sock <- syscall (accept_answer fd) (Accept fd) ;;
           ret (Some {| fileno := sock |})
       | None => raise (OtherError "AttributeError")
       end)
      (fun _ => ret None).

(** [TcpServer.socket_fd]; a server that listens has its socket. *)
Definition socket_fd (self : t) : Z :=
  if negb (_listening self) then -1
  else match _socket self with Some fd => fd | None => -1 end.

(** [TcpServer.__del__], run when the last reference to the server is
    dropped: the socket, when there is one, is closed. *)
Definition del {S} (self : t) : Prog sys_event S unit :=
  if _socket self is Some fd then emit (Close fd) else ret tt.

End TcpServer.

(** ** Programs on a part of the state *)

Definition zoom {E S W A} (proj : W -> S) (inj : S -> W -> W)
    (p : Prog E S A) : Prog E W A :=
  fun w => match p (proj w) with (r, s, t) => (r, inj s w, t) end.

Definition map_events {E F S A} (f : E -> F) (p : Prog E S A) : Prog F S A :=
  fun s => match p s with (r, s', t) => (r, s', map f t) end.

(** A method run on an object that was just made; the object is the
    value. *)
Definition on_new {E S O A} (obj : O) (method : Prog E O A) : Prog E S O :=
  fun s =>
    match method obj with
    | (Ok _, obj', t) => (Ok obj', s, t)
    | (Raise e, _, t) => (Raise e, s, t)
    end.

(** The truth value of a tuple of two: it is not empty. *)
Definition truth {A B} (t : A * B) : bool := true.

(** How one turn of a [while] loop ends: with the next turn, or with
    [break] or [return]. *)
Inductive control : Type := Continue | Break.

(** ** class Connection *)

Module Connection.

Record t : Type := mk {
  _notify : Notify;
  _socket : TcpSocket;
  _is_http : bool;
  _id : Z
}.

(** [Connection.__init__]; the state is the class attribute [_ids].  The
    name given to the thread is left out. *)
Definition init (sock : TcpSocket) (is_http : bool) (pipe : result (Z * Z))
  : Prog sys_event Z t :=
  n <- Notify_init pipe ;;
  ids <- get_self ;;
  put_self (ids + 1) ;;
  ret {| _notify := n; _socket := sock; _is_http := is_http;
         _id := ids + 1 |}.

(** [Connection.stop] *)
Definition stop {S} (self : t) : Prog sys_event S unit :=
  notify (_notify self).

Inductive event : Type :=
  | Select (rlist xlist : list Z) (timeout : Z)
  | IsValid (fd : Z)
  | Recv (fd : Z) (n : Z)
  | Send (fd : Z) (data : string)
  | OnMessage (e : msg_event)
  | QueuePut
  | LogInfo.

(** The local variables of [run]. *)
Record locals : Type := mk_locals { closed : bool; message : NetMessage }.

Definition set_closed (v : bool) : Prog event locals unit :=
  fun l => (Ok tt, {| closed := v; message := message l |}, []).

Definition on_message {A} (p : MsgProg A) : Prog event locals A :=
  zoom message (fun m l => {| closed := closed l; message := m |})
       (map_events OnMessage p).

(** What [select] reports in one turn of the loop and what the socket,
    the peer and the other threads answer during it.  The other threads
    have the message from its [put] on the queue: [before_wait] is what
    they do to it between the [put] and the moment [get_result] has the
    lock, [others] what they do while [get_result] waits. *)
Record iter_env : Type := mk_iter_env {
  readable : list Z;
  exceptional : list Z;
  valid_first : result bool;
  recv_answer : result string;
  before_wait : NetMessage -> NetMessage;
  others : NetMessage -> NetMessage;
  valid_before_send : result bool;
  send_answer : result Z;
  valid_last : result bool
}.

(** What the other threads do to the message while this one is between
    two of its own steps. *)
Definition meanwhile (f : NetMessage -> NetMessage) : Prog event locals unit :=
  fun l => (Ok tt, {| closed := closed l; message := f (message l) |}, []).

(** [self._socket.send(result)]; a [None] has no [encode]. *)
Definition send (fd : Z) (answer : result Z) (data : option string)
  : Prog event locals Z :=
  match data with
  | Some d => syscall answer (Send fd d)
  | None => raise (OtherError "AttributeError")
  end.

Section Run.
Variable unquote : string -> string.

(** One turn of the [while] loop of [Connection.run], after its test. *)
Definition run_iteration (self : t) (me : thread_id) (env : iter_env)
  : Prog event locals control :=
  let nfd := notify_fd (_notify self) in
  let sfd := fileno (_socket self) in
  emit (Select [nfd; sfd] [nfd; sfd] 2) ;;
  if bool_decide (nfd ∈ readable env ++ exceptional env) then ret Break
  else
    let new_data := bool_decide (sfd ∈ readable env) in
    set_closed (bool_decide (sfd ∈ exceptional env)) ;;
    l <- get_self ;;
    if new_data || truth (is_listening (message l)) then
      valid <- syscall (valid_first env) (IsValid sfd) ;;
      if negb valid then ret Break
      else
        data <- (if new_data
                 then syscall (recv_answer env) (Recv sfd 1024)
                 else ret EmptyString) ;;
        if new_data && (len data =? 0) then ret Break
        else
          complete <- on_message (add unquote data) ;;
          after <- (if complete then
                      emit QueuePut ;;
                      meanwhile (before_wait env) ;;
                      result <- on_message (get_result me (others env)) ;;
                      valid <- syscall (valid_before_send env) (IsValid sfd) ;;
                      if negb valid then ret Break
                      else send sfd (send_answer env) result ;; ret Continue
                    else ret Continue) ;;
          match after with
          | Break => ret Break
          | Continue =>
              l <- get_self ;;
              if is_disconnect (message l) then ret Break
              else
                valid <- syscall (valid_last env) (IsValid sfd) ;;
                if negb valid then ret Break else ret Continue
          end
    else ret Continue.

(** The loop, over what the successive [select] calls report; when the
    reports are used up the thread is still in the loop. *)
Inductive status : Type := Running | Ended.

Fixpoint run_loop (self : t) (me : thread_id) (envs : list iter_env)
  : Prog event locals status :=
  l <- get_self ;;
  if closed l then emit LogInfo ;; ret Ended
  else
    match envs with
    | [] => ret Running
    | env :: rest =>
        c <- run_iteration self me env ;;
        match c with
        | Break => emit LogInfo ;; ret Ended
        | Continue => run_loop self me rest
        end
    end.

(** [Connection.run] *)
Definition run (self : t) (me : thread_id) (envs : list iter_env)
  : Prog event locals status :=
  put_self {| closed := false; message := NetMessage_init (_is_http self) |} ;;
  run_loop self me envs.
End Run.

End Connection.

#[global] Instance Notify_eq_dec : EqDecision Notify.
Proof. solve_decision. Defined.
#[global] Instance TcpSocket_eq_dec : EqDecision TcpSocket.
Proof. solve_decision. Defined.
#[global] Instance Connection_eq_dec : EqDecision Connection.t.
Proof. solve_decision. Defined.

(** ** class Network *)

Module Network.

Record t : Type := mk {
  _notify : Notify;
  _connections : list Connection.t;
  _tcp_server : option TcpServer.t;
  _http_server : option TcpServer.t;
  _listening : bool
}.

Inductive event : Type :=
  | Sys (e : sys_event)
  | Select (timeout : Z)
  | OnMessage (ref : nat) (e : msg_event)
  | Sleep
  | ThreadStart (id : Z)
  | ThreadJoin (id : Z)
  | JoinSelf
  | LogInfo
  | SetResult (ref : nat) (result : string) (listening : bool)
              (listen_until : option datetime) (disconnect : bool).

(** The dispatcher with what it shares with the other threads: the class
    attribute [Connection._ids], the messages, each under the reference
    by which the queue and its connection hold it, and the queue. *)
Record world : Type := mk_world {
  net : t;
  ids : Z;
  heap : nat -> NetMessage;
  queue : list nat
}.

Definition with_net (v : t) (w : world) : world :=
  {| net := v; ids := ids w; heap := heap w; queue := queue w |}.
Definition with_ids (v : Z) (w : world) : world :=
  {| net := net w; ids := v; heap := heap w; queue := queue w |}.
Definition with_heap (v : nat -> NetMessage) (w : world) : world :=
  {| net := net w; ids := ids w; heap := v; queue := queue w |}.
Definition with_queue (v : list nat) (w : world) : world :=
  {| net := net w; ids := ids w; heap := heap w; queue := v |}.

Definition with_connections (v : list Connection.t) (self : t) : t :=
  {| _notify := _notify self; _connections := v;
     _tcp_server := _tcp_server self; _http_server := _http_server self;
     _listening := _listening self |}.
Definition with_tcp_server (v : option TcpServer.t) (self : t) : t :=
  {| _notify := _notify self; _connections := _connections self;
     _tcp_server := v; _http_server := _http_server self;
     _listening := _listening self |}.
Definition with_http_server (v : option TcpServer.t) (self : t) : t :=
  {| _notify := _notify self; _connections := _connections self;
     _tcp_server := _tcp_server self; _http_server := v;
     _listening := _listening self |}.

Definition modify (f : world -> world) : Prog event world unit :=
  fun w => (Ok tt, f w, []).

Definition sys {S A} (p : Prog sys_event S A) : Prog event S A :=
  map_events Sys p.

(** A method of the message behind a reference. *)
Definition on_message {A} (ref : nat) (p : MsgProg A) : Prog event world A :=
  zoom (fun w => heap w ref) (fun m w => with_heap (<[ref := m]> (heap w)) w)
       (map_events (OnMessage ref) p).

(** [Network.__init__]: the value is the new object; when a step raises
    there is none. *)
Definition init {S} (local : bool) (port http_port : Z)
    (pipe : result (Z * Z)) (env_tcp env_http : TcpServer.start_env)
  : Prog sys_event S t :=
  n <- Notify_init pipe ;;
  tcp <- on_new (TcpServer.init port (if local then "127.0.0.1" else EmptyString) 5)
                (TcpServer.start env_tcp) ;;
  http <- (if http_port >? 0 then
             h <- on_new (TcpServer.init http_port EmptyString 5)
                         (TcpServer.start env_http) ;;
             ret (Some h)
           else ret None) ;;
  ret {| _notify := n; _connections := []; _tcp_server := Some tcp;
         _http_server := http; _listening := true |}.

(** [Network.stop] *)
Definition stop : Prog event world unit :=
  w <- get_self ;;
  sys (notify (_notify (net w))) ;;
  emit Sleep.

(** [Network.clean_connections]; [is_alive] is the state of the threads. *)
Definition clean_connections (is_alive : Connection.t -> bool)
  : Prog event world unit :=
  w <- get_self ;;
  let dead_conn := filter (fun conn => negb (is_alive conn) = true)
                          (_connections (net w)) in
  modify (fun w =>
    with_net (with_connections
                (filter (fun conn => conn ∉ dead_conn) (_connections (net w)))
                (net w)) w).

(** What [select] reports in one turn of the loop of [run], and what the
    system answers during it. *)
Record run_env : Type := mk_run_env {
  readable : list Z;
  accept_answer : Z -> result Z;
  pipe_answer : result (Z * Z);
  is_alive : Connection.t -> bool
}.

(** [self._tcp_server.X]: [None] has no attributes. *)
Definition the_tcp_server : Prog event world TcpServer.t :=
  w <- get_self ;;
  match _tcp_server (net w) with
  | Some tcp => ret tcp
  | None => raise (OtherError "AttributeError")
  end.

(** [self._tcp_server.new_socket()] *)
Definition tcp_server_new_socket (accept_answer : Z -> result Z)
  : Prog event world (option TcpSocket) :=
  tcp <- the_tcp_server ;;
  zoom (fun _ => tcp)
       (fun tcp' w => with_net (with_tcp_server (Some tcp') (net w)) w)
       (sys (TcpServer.new_socket accept_answer)).

(** One turn of the [while True] loop of [Network.run]; [Break] is its
    [return]. *)
Definition run_iteration (env : run_env) : Prog event world control :=
  emit (Select 1) ;;
  if len_list (readable env) =? 0 then
    clean_connections (is_alive env) ;; ret Continue
  else
    w <- get_self ;;
    if bool_decide (notify_fd (_notify (net w)) ∈ readable env) then ret Break
    else
      tcp <- the_tcp_server ;;
      flags <-
        (if bool_decide (TcpServer.socket_fd tcp ∈ readable env)
         then ret (true, false)
         else if (match _http_server (net w) with
                  | Some http =>
                      bool_decide (TcpServer.socket_fd http ∈ readable env)
                  | None => false
                  end)
         then ret (true, true)
         else ret (false, false)) ;;
      let new_conn := flags.1 in
      let is_http := flags.2 in
      if new_conn then
        sock <- tcp_server_new_socket (accept_answer env) ;;
        match sock with
        | None => ret Continue
        | Some sock =>
            conn <- zoom ids with_ids
                      (sys (Connection.init sock is_http (pipe_answer env))) ;;
            emit LogInfo ;;
            emit (ThreadStart (Connection._id conn)) ;;
            modify (fun w =>
              with_net (with_connections (_connections (net w) ++ [conn])
                                         (net w)) w) ;;
            ret Continue
        end
      else ret Continue.

(** [message.set_result(...)] on the message behind a reference: the
    call, then what its body does. *)
Definition set_result_of (me : thread_id) (ref : nat) (result : string)
    (listening : bool) (listen_until : option datetime) (disconnect : bool)
  : Prog event world unit :=
  emit (SetResult ref result listening listen_until disconnect) ;;
  on_message ref (set_result me result listening listen_until disconnect).

(** [self._net_queue.get_nowait()]: the oldest message leaves the queue;
    [None] stands for [queue.Empty]. *)
Definition get_nowait : Prog event world (option nat) :=
  w <- get_self ;;
  match queue w with
  | [] => ret None
  | message :: rest => modify (with_queue rest) ;; ret (Some message)
  end.

(** [self._net_queue.put(message)], by the connections. *)
Definition put_by_others (arrived : list nat) : Prog event world unit :=
  modify (fun w => with_queue (queue w ++ arrived) w).

(** What a thread other than the dispatcher does to the message behind
    a reference. *)
Definition by_thread (ref : nat) (f : NetMessage -> NetMessage)
  : Prog event world unit :=
  modify (fun w => with_heap (<[ref := f (heap w ref)]> (heap w)) w).

(** Where the thread of a registered connection is when the dispatcher
    has written to its wake channel and joins it.
    [NotStarted]: [start] was never called on it.
    [Finished]: [run] has returned.
    [InSelect]: in the loop of [run] and not on its way to [get_result];
    the next [select] reports the wake handle and the loop breaks.
    [InGetResult ref tid]: the thread, [tid], has completed a request on
    the message behind [ref], puts it on the queue and calls
    [get_result], or waits in it already; once [get_result] has
    returned the thread sends the result and ends, on the disconnect
    flag or at the next [select]. *)
Inductive thread_position : Type :=
  | NotStarted
  | Finished
  | InSelect
  | InGetResult (ref : nat) (tid : thread_id).

(** What [self.join()] answers: it returns when [run] has returned, it
    raises [RuntimeError] when the thread was never started, and it
    blocks as long as [run] does not return. *)
Inductive join_answer : Type := JoinReturns | JoinRaises | JoinBlocks.

(** What the other threads do while [__del__] runs.
    [puts_during_drain]: the messages that the connections put on the
    queue before each [get_nowait] of the first loop, turn by turn.
    [puts_after_drain]: those they put once that loop has ended.
    [position]: where each connection's thread is when it is joined.
    [late_post]: what is posted, while its thread is joined, to a
    message that has no result then: the answer of the thread that took
    it from the queue, when that answer ever comes.
    [own_join]: what [self.join()] answers. *)
Record del_env : Type := mk_del_env {
  puts_during_drain : list (list nat);
  puts_after_drain : list nat;
  position : Connection.t -> thread_position;
  late_post : nat -> option post;
  own_join : join_answer
}.

(** How [__del__] ends when it raises nothing: it returns, or it never
    does, blocked in the [join] of a connection or in its own. *)
Inductive ending : Type :=
  | Returns
  | BlocksInJoin (id : Z)
  | BlocksInOwnJoin.

(** The first loop of [Network.__del__] from the moment the connections
    put nothing more: over the queue as it stands. *)
Fixpoint drain_rest (me : thread_id) (pending : list nat)
  : Prog event world unit :=
  match pending with
  | [] => ret tt
  | message :: rest =>
      modify (with_queue rest) ;;
      set_result_of me message "ERR: shutdown" false None true ;;
      drain_rest me rest
  end.

(** The first loop of [Network.__del__]: [get_nowait] takes the oldest
    message, which is posted the shutdown answer; [queue.Empty] ends the
    loop. *)
Fixpoint drain (me : thread_id) (puts : list (list nat))
  : Prog event world unit :=
  match puts with
  | [] => w <- get_self ;; drain_rest me (queue w)
  | arrived :: later =>
      put_by_others arrived ;;
      message <- get_nowait ;;
      match message with
      | None => ret tt
      | Some message =>
          set_result_of me message "ERR: shutdown" false None true ;;
          drain me later
      end
  end.

(** [conn.join()]: the call returns when the thread of [conn] has
    ended, and the value says whether it does.  A thread that is in
    [get_result] ends after the result has come: it takes it, which
    empties the request and the slot; when there is no result and none
    is posted later, it waits for ever and so does the caller of
    [join]. *)
Definition join (env : del_env) (conn : Connection.t)
  : Prog event world bool :=
  emit (ThreadJoin (Connection._id conn)) ;;
  match position env conn with
  | NotStarted => raise (OtherError "RuntimeError")
  | Finished => ret true
  | InSelect => ret true
  | InGetResult ref tid =>
      w <- get_self ;;
      match _result (heap w ref), late_post env ref with
      | Some _, _ =>
          by_thread ref (effect (get_result tid id)) ;; ret true
      | None, Some p =>
          by_thread ref (effect (get_result tid (run_post p))) ;; ret true
      | None, None => ret false
      end
  end.

(** The second loop, over the connections from the last one on:
    [pop()], [stop()], [join()]. *)
Fixpoint stop_connections (env : del_env) (stack : list Connection.t)
  : Prog event world ending :=
  match stack with
  | [] => ret Returns
  | conn :: rest =>
      modify (fun w => with_net (with_connections (rev rest) (net w)) w) ;;
      sys (Connection.stop conn) ;;
      ended <- join env conn ;;
      if ended then stop_connections env rest
      else ret (BlocksInJoin (Connection._id conn))
  end.

(** The last reference to a listener is dropped. *)
Definition drop_listener (server : option TcpServer.t)
  : Prog event world unit :=
  match server with
  | Some server => sys (TcpServer.del server)
  | None => ret tt
  end.

(** [self._tcp_server = None] and [self._http_server = None]. *)
Definition drop_listeners : Prog event world unit :=
  w <- get_self ;;
  modify (fun w => with_net (with_tcp_server None (net w)) w) ;;
  drop_listener (_tcp_server (net w)) ;;
  w <- get_self ;;
  modify (fun w => with_net (with_http_server None (net w)) w) ;;
  drop_listener (_http_server (net w)).

(** [self.join()] *)
Definition join_self (env : del_env) : Prog event world ending :=
  emit JoinSelf ;;
  match own_join env with
  | JoinReturns => ret Returns
  | JoinRaises => raise (OtherError "RuntimeError")
  | JoinBlocks => ret BlocksInOwnJoin
  end.

(** [Network.__del__], run by thread [me]. *)
Definition del (env : del_env) (me : thread_id) : Prog event world ending :=
  stop ;;
  drain me (puts_during_drain env) ;;
  put_by_others (puts_after_drain env) ;;
  w <- get_self ;;
  joined <- stop_connections env (rev (_connections (net w))) ;;
  match joined with
  | Returns => drop_listeners ;; join_self env
  | blocked => ret blocked
  end.

End Network.

(** ** What the system can answer to [start]

    [starts env]: every call of one [start] succeeds.
    [bind_or_listen_fails env ex]: the socket is made and configured, and
    then [bind], or after it [listen], raises [ex]. *)

Definition starts (env : TcpServer.start_env) : Prop :=
  (exists fd, TcpServer.socket_answer env = Ok fd) /\
  TcpServer.setsockopt_answer env = Ok tt /\
  TcpServer.bind_answer env = Ok tt /\
  TcpServer.listen_answer env = Ok tt.

Definition bind_or_listen_fails (env : TcpServer.start_env) (ex : exn) : Prop :=
  (exists fd, TcpServer.socket_answer env = Ok fd) /\
  TcpServer.setsockopt_answer env = Ok tt /\
  (TcpServer.bind_answer env = Raise ex \/
   (TcpServer.bind_answer env = Ok tt /\
    TcpServer.listen_answer env = Raise ex)).

(** ** What teardown leaves on a message

    [answered m m']: [m'] is [m] after the shutdown answer was posted:
    the sentinel is in the result slot, the connection is told to
    disconnect, and a waiter, when there was one, has been woken. *)







(** ** Worked examples: a dispatcher with both listeners bound *)

Definition example_plain : TcpServer.t :=
  TcpServer.mk 8888 "127.0.0.1" 5 true (Some 5).
Definition example_http : TcpServer.t :=
  TcpServer.mk 8080 EmptyString 5 true (Some 6).

Definition example_connection (id : Z) : Connection.t :=
  {| Connection._notify := {| _recvfd := 100 + 2 * id; _sendfd := 101 + 2 * id |};
     Connection._socket := {| fileno := 20 + id |};
     Connection._is_http := false;
     Connection._id := id |}.

(** Two connections, each blocked in [get_result] on its message, and
    both messages still in the queue. *)
Definition example_world : Network.world :=
  {| Network.net :=
       {| Network._notify := {| _recvfd := 3; _sendfd := 4 |};
          Network._connections := [example_connection 1; example_connection 2];
          Network._tcp_server := Some example_plain;
          Network._http_server := Some example_http;
          Network._listening := true |};
     Network.ids := 2;
     Network.heap := fun ref =>
       with_waiters [ref] (with_request "ping" (NetMessage_init false));
     Network.queue := [1%nat; 2%nat] |}.




(** Only the HTTP listener is readable; a connection is pending there. *)
Definition example_http_ready : Network.run_env :=
  {| Network.readable := [6];
     Network.accept_answer := fun fd => Ok (30 + fd);
     Network.pipe_answer := Ok (110, 111);
     Network.is_alive := fun _ => true |}.

(** A turn of a connection's loop in which [select] times out. *)
Definition example_timeout (valid : bool) : Connection.iter_env :=
  {| Connection.readable := [];
     Connection.exceptional := [];
     Connection.valid_first := Ok valid;
     Connection.recv_answer := Ok EmptyString;
     Connection.before_wait := id;
     Connection.others := id;
     Connection.valid_before_send := Ok valid;
     Connection.send_answer := Ok 0;
     Connection.valid_last := Ok valid |}.

(** ** Feeding the framer

    [terminator m]: the text whose first occurrence completes a request.
    [feed fragments m]: the message after the fragments were given to
    [add] one after the other. *)

Definition terminator (m : NetMessage) : string :=
  if _is_http m then String LF (chr LF) else chr LF.

Fixpoint feed (unquote : string -> string) (fragments : list string)
    (m : NetMessage) : NetMessage :=
  match fragments with
  | [] => m
  | fragment :: rest => feed unquote rest (state_of (add unquote fragment m))
  end.

(** The fragments put together. *)
Definition joined (fragments : list string) : string :=
  foldr String.append EmptyString fragments.

(** A turn of the loop of [example_connection 1] (wake handle 102,
    socket 21) on a valid socket. *)
Definition example_turn (readable exceptional : list Z)
    (data : result string) (others : NetMessage -> NetMessage)
  : Connection.iter_env :=
  {| Connection.readable := readable;
     Connection.exceptional := exceptional;
     Connection.valid_first := Ok true;
     Connection.recv_answer := data;
     Connection.before_wait := id;
     Connection.others := others;
     Connection.valid_before_send := Ok true;
     Connection.send_answer := Ok 4;
     Connection.valid_last := Ok true |}.

(** The same turn when the answer is posted as soon as the message is
    on the queue, before [get_result] has the lock. *)
Definition example_turn_posted (readable exceptional : list Z)
    (data : result string) (answer : post)
  : Connection.iter_env :=
  {| Connection.readable := readable;
     Connection.exceptional := exceptional;
     Connection.valid_first := Ok true;
     Connection.recv_answer := data;
     Connection.before_wait := run_post answer;
     Connection.others := id;
     Connection.valid_before_send := Ok true;
     Connection.send_answer := Ok 4;
     Connection.valid_last := Ok true |}.

Definition fresh_locals (is_http : bool) : Connection.locals :=
  Connection.mk_locals false (NetMessage_init is_http).

(** ** The identifiers of the registry

    [ids_fresh w]: the connections of the registry have different
    identifiers, none above the class counter. *)

Definition ids_fresh (w : Network.world) : Prop :=
  NoDup (Connection._id <$> Network._connections (Network.net w)) /\
  Forall (fun conn => Connection._id conn <= Network.ids w)
         (Network._connections (Network.net w)).

(** ** A listener and its socket

    [socket_when_listening s]: a server that listens has a socket. *)

Definition socket_when_listening (s : TcpServer.t) : Prop :=
  TcpServer._listening s = true -> is_Some (TcpServer._socket s).

(** ** Facts about the string operations *)

Lemma app_empty (b : string) : EmptyString +:+ b = b.
Proof. reflexivity. Qed.

Lemma app_String (c : ascii) (a b : string) :
  String c a +:+ b = String c (a +:+ b).
Proof. reflexivity. Qed.

Lemma str_app_assoc (a b c : string) : (a +:+ b) +:+ c = a +:+ (b +:+ c).
Proof.
  induction a as [|x a IH]; rewrite ?app_empty, ?app_String; [done|].
  by rewrite IH.
Qed.

Lemma len_app (a b : string) : len (a +:+ b) = len a + len b.
Proof.
  unfold len. induction a as [|c a IH]; simpl String.length in *; [done|].
  simpl. lia.
Qed.

Lemma len_nonneg (s : string) : 0 <= len s.
Proof. unfold len. lia. Qed.

Lemma substring_app_l (a b : string) :
  String.substring 0 (String.length a) (a +:+ b) = a.
Proof.
  induction a as [|c a IH]; simpl.
  - by destruct b.
  - by rewrite IH.
Qed.

Lemma slice_to_app (a b : string) : slice_to (a +:+ b) (len a) = a.
Proof.
  unfold slice_to. pose proof (len_nonneg a). pose proof (len_nonneg b).
  rewrite len_app.
  destruct (Z.ltb_spec (len a) 0); [lia|].
  rewrite Z.min_l by lia. unfold len. rewrite Nat2Z.id.
  apply substring_app_l.
Qed.

Lemma remove_char_app (c : ascii) (a b : string) :
  remove_char c (a +:+ b) = remove_char c a +:+ remove_char c b.
Proof.
  induction a as [|x a IH]; simpl; [done|].
  destruct (Ascii.eqb x c); simpl; by rewrite IH.
Qed.

Lemma remove_char_absent (c : ascii) (s : string) :
  contains_char c (remove_char c s) = false.
Proof.
  induction s as [|x s IH]; simpl; [done|].
  destruct (Ascii.eqb x c) eqn:E; simpl; [done|]. by rewrite E.
Qed.

Lemma remove_char_keeps_absent (c d : ascii) (s : string) :
  contains_char c s = false -> contains_char c (remove_char d s) = false.
Proof.
  induction s as [|x s IH]; simpl; [done|].
  intros [Hx Hs]%orb_false_iff.
  destruct (Ascii.eqb x d); simpl; [auto|]. rewrite Hx. simpl. auto.
Qed.

Lemma contains_char_app (c : ascii) (a b : string) :
  contains_char c (a +:+ b) = contains_char c a || contains_char c b.
Proof.
  induction a as [|x a IH]; simpl; [done|]. by rewrite IH, orb_assoc.
Qed.

Lemma prefix_app (sub b : string) : String.prefix sub (sub +:+ b) = true.
Proof.
  induction sub as [|c sub IH]; simpl; [by destruct b|].
  by destruct (ascii_dec c c).
Qed.

Lemma prefix_chr (c x : ascii) (s : string) :
  String.prefix (chr c) (String x s) = Ascii.eqb x c.
Proof.
  simpl. destruct (ascii_dec c x) as [->|Hne].
  - rewrite Ascii.eqb_refl. by destruct s.
  - symmetry. apply Ascii.eqb_neq. congruence.
Qed.

(** The first occurrence of a character that the text before it lacks. *)
Lemma find_from_char (c : ascii) (a b : string) (i : Z) :
  contains_char c a = false ->
  find_from (chr c) (a +:+ String c b) i = i + len a.
Proof.
  revert i. induction a as [|x a IH]; intros i Ha.
  - rewrite ?app_empty, ?app_String. cbn [find_from]. rewrite prefix_chr, Ascii.eqb_refl.
    unfold len. simpl. lia.
  - simpl in Ha. apply orb_false_iff in Ha as [Hx Ha].
    rewrite ?app_empty, ?app_String. cbn [find_from]. rewrite prefix_chr, Hx.
    rewrite IH by done. unfold len. simpl String.length. lia.
Qed.

Lemma find_from_found (sub a b : string) (i : Z) :
  0 <= i -> find_from sub (a +:+ sub +:+ b) i <> -1.
Proof.
  revert i. induction a as [|x a IH]; intros i Hi.
  - rewrite ?app_empty, ?app_String. destruct (sub +:+ b) eqn:E.
    + cbn [find_from]. rewrite <- E at 1. rewrite prefix_app. lia.
    + cbn [find_from]. rewrite <- E at 1. rewrite prefix_app. lia.
  - rewrite ?app_empty, ?app_String. cbn [find_from].
    destruct (String.prefix _ _); [lia|]. apply IH. lia.
Qed.

(** The last [" HTTP/"] of a line that ends in [" HTTP/1.1"] is that one. *)
Lemma rfind_from_http_suffix (x : string) (i : Z) :
  0 <= i -> rfind_from " HTTP/" (x +:+ " HTTP/1.1") i = i + len x.
Proof.
  revert i. induction x as [|c x IH]; intros i Hi.
  - rewrite ?app_empty, ?app_String. vm_compute. by destruct i.
  - rewrite ?app_empty, ?app_String. cbn [rfind_from]. rewrite IH by lia.
    pose proof (len_nonneg x).
    destruct (Z.eqb_spec (i + 1 + len x) (-1)); [lia|].
    unfold len. simpl String.length. lia.
Qed.

(** ** The framer *)

Section Framer.
Variable unquote : string -> string.

Ltac run_add :=
  unfold add, bind, get_self, set_request, ret, value_of, state_of;
  cbn [fst snd _request _is_http _listening with_request].

(** Plain mode, one complete line arriving on an accumulator that holds
    no newline: the line, without its newline, is the request. *)
Lemma add_plain_line (m : NetMessage) (r : string) :
  _is_http m = false ->
  contains_char LF (_request m) = false ->
  contains_char LF r = false ->
  let out := add unquote (r +:+ chr LF) m in
  value_of out = Ok true /\
  state_of out = with_request (_request m +:+ remove_char CR r) m.
Proof.
  intros Hhttp Hacc Hr.
  set (line := _request m +:+ remove_char CR r).
  assert (Hbuf : _request m +:+ remove_char CR (r +:+ chr LF)
                 = line +:+ chr LF).
  { rewrite remove_char_app. unfold line. by rewrite str_app_assoc. }
  assert (Hline : contains_char LF line = false).
  { unfold line. rewrite contains_char_app, Hacc.
    by rewrite remove_char_keeps_absent. }
  assert (Hfind : find (line +:+ chr LF) (chr LF) = len line).
  { rewrite <- (Z.add_0_l (len line)).
    by apply (find_from_char LF line EmptyString 0). }
  run_add. rewrite Hhttp, Hbuf, Hfind, len_app.
  pose proof (len_nonneg line).
  destruct (Z.eqb_spec (len line) (-1)); [lia|].
  change (len (chr LF)) with 1. rewrite Z.eqb_refl.
  cbn. rewrite slice_to_app. done.
Qed.

(** C7: in plain mode, feeding [r + "\n"], for a text [r] without
    newline, to a framer whose accumulator is empty makes [add] return
    [True]; the stored request is [r] with every carriage return
    removed: the newline is gone and no carriage return is kept. *)
Theorem add_plain_request_line (m : NetMessage) (r : string) :
  _is_http m = false ->
  _request m = EmptyString ->
  contains_char LF r = false ->
  let out := add unquote (r +:+ chr LF) m in
  value_of out = Ok true /\
  _request (state_of out) = remove_char CR r /\
  contains_char CR (_request (state_of out)) = false /\
  contains_char LF (_request (state_of out)) = false.
Proof.
  intros Hhttp Hacc Hr out.
  destruct (add_plain_line m r) as [Hv Hs]; [done| by rewrite Hacc |done|].
  fold out in Hv, Hs. rewrite Hs, Hacc, app_empty.
  cbn [_request with_request].
  split_and!; [done|done|apply remove_char_absent|].
  by apply remove_char_keeps_absent.
Qed.

(** C2, amended: in plain mode, when [add] finds the first newline of
    the accumulated text at a position that is not its last, it returns
    [True] and keeps the whole accumulated text, the newline and what
    follows it included; nothing is cut off. *)
Theorem add_plain_newline_inside (m : NetMessage) (request : string) :
  _is_http m = false ->
  let buf := _request m +:+ remove_char CR request in
  let pos := find buf (chr LF) in
  pos <> -1 ->
  pos + 1 <> len buf ->
  let out := add unquote request m in
  value_of out = Ok true /\ state_of out = with_request buf m.
Proof.
  intros Hhttp buf pos Hfound Hinside.
  run_add. rewrite Hhttp. fold buf. fold pos.
  destruct (Z.eqb_spec pos (-1)); [done|].
  destruct (Z.eqb_spec (pos + 1) (len buf)); [done|].
  by cbn.
Qed.

(** The request line of [GET path HTTP/1.1], carriage returns removed. *)
Lemma http_request_buffer (path : string) :
  remove_char CR ("GET " +:+ path +:+ " HTTP/1.1" +:+ CRLF +:+ CRLF)
  = (("GET " +:+ remove_char CR path) +:+ " HTTP/1.1")
      +:+ String LF (chr LF).
Proof.
  rewrite !remove_char_app, !str_app_assoc. reflexivity.
Qed.

(** C1, amended: in HTTP mode, feeding ["GET " + path + " HTTP/1.1\r\n\r\n"],
    for a path without newline, to a framer whose accumulator is empty
    makes [add] return [True]; the stored request is the percent-decoding
    of ["GET " + path] (carriage returns removed): the [" HTTP/1.1"]
    suffix is gone, the method word and its space stay. *)
Theorem add_http_request_line (m : NetMessage) (path : string) :
  _is_http m = true ->
  _request m = EmptyString ->
  contains_char LF path = false ->
  let out :=
    add unquote ("GET " +:+ path +:+ " HTTP/1.1" +:+ CRLF +:+ CRLF) m in
  value_of out = Ok true /\
  _request (state_of out) = unquote ("GET " +:+ remove_char CR path).
Proof.
  intros Hhttp Hacc Hpath.
  set (head := "GET " +:+ remove_char CR path).
  set (line := head +:+ " HTTP/1.1").
  assert (Hline : contains_char LF line = false).
  { unfold line, head. rewrite !contains_char_app.
    by rewrite (remove_char_keeps_absent LF CR path Hpath). }
  assert (Hend : find (line +:+ String LF (chr LF)) (String LF (chr LF))
                 <> -1).
  { apply (find_from_found (String LF (chr LF)) line EmptyString 0). lia. }
  assert (Hfirst : find (line +:+ String LF (chr LF)) (chr LF) = len line).
  { rewrite <- (Z.add_0_l (len line)).
    by apply (find_from_char LF line (chr LF) 0). }
  assert (Hlast : rfind line " HTTP/" = len head).
  { rewrite <- (Z.add_0_l (len head)).
    by apply (rfind_from_http_suffix head 0). }
  run_add. rewrite Hhttp, Hacc, app_empty, http_request_buffer.
  fold head. fold line.
  destruct (Z.eqb_spec (find (line +:+ String LF (chr LF))
                             (String LF (chr LF))) (-1)); [done|].
  cbn -[find rfind slice_to len line head].
  rewrite Hfirst, slice_to_app, Hlast.
  pose proof (len_nonneg head).
  destruct (Z.eqb_spec (len head) (-1)); [lia|].
  cbn -[find rfind slice_to len line head].
  unfold line. by rewrite slice_to_app.
Qed.
End Framer.

(** The library's decoding leaves an unescaped prefix alone. *)
Lemma unquote_model_GET (path : string) :
  unquote_model ("GET " +:+ path) = "GET " +:+ unquote_model path.
Proof.
  unfold unquote_model. rewrite !app_String, app_empty.
  cbn [contains_char unquote_escapes Ascii.eqb Bool.eqb orb].
  by destruct (contains_char "%" path).
Qed.

Lemma add_plain_request_line_witness :
  let r := "pi" +:+ chr CR +:+ "ng" +:+ chr CR in
  contains_char LF r = false /\
  _request (state_of (add unquote_model (r +:+ chr LF) (NetMessage_init false)))
  = "ping".
Proof.
  split; [reflexivity|].
  apply (add_plain_request_line unquote_model (NetMessage_init false)
           ("pi" +:+ chr CR +:+ "ng" +:+ chr CR));
    reflexivity.
Defined.

(** C2 as stated fails: after ["a\nb"] the request is not cut to ["a"]. *)
Lemma add_plain_newline_inside_not_truncated :
  let m := NetMessage_init false in
  let request := "a" +:+ chr LF +:+ "b" in
  let buf := _request m +:+ remove_char CR request in
  let out := add unquote_model request m in
  find buf (chr LF) = 1 /\
  find buf (chr LF) + 1 <> len buf /\
  value_of out = Ok true /\
  slice_to buf (find buf (chr LF)) = "a" /\
  _request (state_of out) = request /\
  _request (state_of out) <> slice_to buf (find buf (chr LF)).
Proof. vm_compute. split_and!; try reflexivity; discriminate. Qed.

Lemma add_plain_newline_inside_witness :
  let m := NetMessage_init false in
  let request := "a" +:+ chr LF +:+ "b" in
  find (_request m +:+ remove_char CR request) (chr LF) = 1 /\
  state_of (add unquote_model request m) = with_request request m.
Proof.
  split; [reflexivity|].
  apply (add_plain_newline_inside unquote_model (NetMessage_init false)
           ("a" +:+ chr LF +:+ "b"));
    [reflexivity | vm_compute; discriminate | vm_compute; discriminate].
Defined.

(** C1 as stated fails: the method word is part of the stored request. *)
Lemma add_http_keeps_method :
  let path := "/status%20now" in
  let out :=
    add unquote_model ("GET " +:+ path +:+ " HTTP/1.1" +:+ CRLF +:+ CRLF)
        (NetMessage_init true) in
  value_of out = Ok true /\
  unquote_model path = "/status now" /\
  _request (state_of out) = "GET /status now" /\
  _request (state_of out) <> unquote_model path.
Proof. vm_compute. split_and!; try reflexivity; discriminate. Qed.

Lemma add_http_request_line_witness :
  let path := "/status%20now" in
  contains_char LF path = false /\
  _request
    (state_of
       (add unquote_model ("GET " +:+ path +:+ " HTTP/1.1" +:+ CRLF +:+ CRLF)
            (NetMessage_init true)))
  = "GET /status now".
Proof.
  split; [reflexivity|].
  apply (add_http_request_line unquote_model (NetMessage_init true)
           "/status%20now");
    reflexivity.
Defined.

(** ** Handing the result over *)



Section ResultHandOff.
Variables (consumer worker : thread_id).


(** C6: [set_result] stores its four arguments between one [Acquire]
    and one [Release] and notifies once, which wakes the oldest waiter
    and no other; a [get_result] that runs after it, or that was
    blocked in its wait when the post came, returns the posted string
    and leaves the request empty and the result slot [None]. *)
Theorem set_result_then_get_result
    (m : NetMessage) (result : string) (listening : bool)
    (listen_until : option datetime) (disconnect : bool)
    (others : NetMessage -> NetMessage) :
  let post := set_result worker result listening listen_until disconnect in
  trace_of (post m) =
    [Acquire worker; Store F_result; Store F_listening;
     Store F_listen_since; Store F_disconnect;
     CvNotify (take 1 (_condition m)); Release worker] /\
  state_of (post m) =
    {| _is_http := _is_http m;
       _condition := drop 1 (_condition m);
       _listening := listening;
       _listen_since := listen_until;
       _disconnect := disconnect;
       _request := _request m;
       _result := Some result |} /\
  (let got := get_result consumer others (state_of (post m)) in
   value_of got = Ok (Some result) /\
   _request (state_of got) = EmptyString /\
   _result (state_of got) = None) /\
  (_result m = None ->
   _condition m = [] ->
   let got := get_result consumer (effect post) m in
   value_of got = Ok (Some result) /\
   _request (state_of got) = EmptyString /\
   _result (state_of got) = None /\
   _condition (state_of got) = [] /\
   trace_of got =
     [Acquire consumer; CvWait consumer; CvWoken consumer true;
      Store F_request; Store F_result; Release consumer] /\
   trace_of (post (with_waiters (_condition m ++ [consumer]) m)) =
     [Acquire worker; Store F_result; Store F_listening;
      Store F_listen_since; Store F_disconnect;
      CvNotify [consumer]; Release worker]).
Proof.
  split_and!; [reflexivity|reflexivity|by cbn|].
  intros Hm Hw.
  unfold get_result, set_result, effect, with_condition, bind, get_self,
    condition_wait, condition_notify, set_request, set__result,
    set_listening, set_listen_since, set_disconnect, ret, value_of,
    state_of, trace_of.
  rewrite Hm. cbn. rewrite Hw. cbn. done.
Qed.
End ResultHandOff.


Lemma set_result_then_get_result_witness :
  let m := with_request "ping" (NetMessage_init false) in
  _result m = None /\ _condition m = [] /\
  value_of (get_result 1%nat
              (effect (set_result 2%nat "pong" false None false)) m)
  = Ok (Some "pong").
Proof.
  split; [reflexivity|]. split; [reflexivity|].
  apply (set_result_then_get_result 1%nat 2%nat
           (with_request "ping" (NetMessage_init false))
           "pong" false None false id);
    reflexivity.
Defined.

(** ** Starting the listeners *)

Ltac run_start :=
  unfold TcpServer.start, try_OSError, bind, get_self, syscall, emit, raise,
    ret, TcpServer.set_socket, TcpServer.set_listening;
  cbn.

(** A server that listens is left alone by [start]. *)
Lemma start_listening (env : TcpServer.start_env) (s : TcpServer.t) :
  TcpServer._listening s = true -> TcpServer.start env s = (Ok tt, s, []).
Proof. intros H. run_start. by rewrite H. Qed.

(** A [start] that returns leaves the server listening. *)
Lemma start_ok_listening (env : TcpServer.start_env) (s : TcpServer.t) :
  value_of (TcpServer.start env s) = Ok tt ->
  TcpServer._listening (state_of (TcpServer.start env s)) = true.
Proof.
  destruct (TcpServer._listening s) eqn:Hl.
  { intros _. by rewrite start_listening. }
  destruct s as [p a b l [sk|]]; cbn in Hl; subst l.
  all: destruct env as [[fd|[n|x]] [[]|[n1|x1]] [[]|[n2|x2]] [[]|[n3|x3]]];
    unfold value_of, state_of; run_start; done.
Qed.

(** A [start] whose [bind] or [listen] is refused raises that error. *)
Lemma start_raises (env : TcpServer.start_env) (s : TcpServer.t) (ex : exn) :
  TcpServer._listening s = false ->
  bind_or_listen_fails env ex ->
  value_of (TcpServer.start env s) = Raise ex.
Proof.
  intros Hl ([fd Hs] & Ho & Hbl).
  destruct env as [sa oa ba la]; cbn in *; subst sa oa.
  unfold value_of. run_start. rewrite Hl.
  destruct Hbl as [->|[-> ->]]; destruct ex; reflexivity.
Qed.

Lemma start_succeeds (env : TcpServer.start_env) (s : TcpServer.t) :
  TcpServer._listening s = false ->
  starts env ->
  value_of (TcpServer.start env s) = Ok tt.
Proof.
  intros Hl ([fd Hs] & Ho & Hb & Hli).
  destruct env as [sa oa ba la]; cbn in *; subst.
  unfold value_of. run_start. by rewrite Hl.
Qed.

(** C10: [start] on a server that is listening returns at once, makes no
    call to the system and leaves the server as it is; so a [start] after
    a [start] that returned changes nothing. *)
Theorem start_idempotent (env env' : TcpServer.start_env) (s : TcpServer.t) :
  (TcpServer._listening s = true ->
   TcpServer.start env s = (Ok tt, s, [])) /\
  (value_of (TcpServer.start env s) = Ok tt ->
   let s' := state_of (TcpServer.start env s) in
   TcpServer.start env' s' = (Ok tt, s', [])).
Proof.
  split; [apply start_listening|].
  intros Hok s'. apply start_listening. by apply start_ok_listening.
Qed.

(** C9: when [bind] or [listen] is refused for the plain listener, or for
    the HTTP listener of a configuration with a positive HTTP port after
    the plain listener has started, [Network.__init__] raises that very
    error and yields no object. *)
Theorem init_propagates_bind_error
    (local : bool) (port http_port : Z) (fds : Z * Z)
    (env_tcp env_http : TcpServer.start_env) (ex : exn) :
  bind_or_listen_fails env_tcp ex \/
  (starts env_tcp /\ 0 < http_port /\ bind_or_listen_fails env_http ex) ->
  value_of (Network.init local port http_port (Ok fds) env_tcp env_http tt)
  = Raise ex.
Proof.
  intros H.
  unfold value_of, Network.init, Notify_init, on_new, bind at 1 2 3, syscall, ret.
  cbn [fst snd].
  destruct H as [H|(Hs & Hp & H)].
  - pose proof (start_raises env_tcp
      (TcpServer.init port (if local then "127.0.0.1" else EmptyString) 5)
      ex eq_refl H) as Hr.
    unfold value_of in Hr.
    destruct (TcpServer.start env_tcp _) as [[r s'] t]. cbn in Hr. by subst r.
  - pose proof (start_succeeds env_tcp
      (TcpServer.init port (if local then "127.0.0.1" else EmptyString) 5)
      eq_refl Hs) as Hr.
    pose proof (start_raises env_http
      (TcpServer.init http_port EmptyString 5) ex eq_refl H) as Hr'.
    unfold value_of in Hr, Hr'.
    destruct (TcpServer.start env_tcp _) as [[r s'] t]. cbn in Hr. subst r.
    destruct (Z.gtb_spec http_port 0); [|lia].
    unfold bind.
    destruct (TcpServer.start env_http _) as [[r' s''] t']. cbn in Hr'.
    by subst r'.
Qed.

Lemma start_idempotent_witness :
  let env := TcpServer.mk_start_env (Ok 3) (Ok tt) (Ok tt) (Ok tt) in
  let env' := TcpServer.mk_start_env (Ok 4) (Ok tt) (Raise (OSError 98)) (Ok tt) in
  let s := TcpServer.init 8888 "127.0.0.1" 5 in
  let s' := state_of (TcpServer.start env s) in
  value_of (TcpServer.start env s) = Ok tt /\
  TcpServer._listening s' = true /\
  TcpServer.start env' s' = (Ok tt, s', []) /\
  TcpServer.start env' (state_of (TcpServer.start env' s'))
  = (Ok tt, state_of (TcpServer.start env' s'), []).
Proof.
  split; [reflexivity|]. split; [reflexivity|]. split.
  - apply (start_idempotent
             (TcpServer.mk_start_env (Ok 3) (Ok tt) (Ok tt) (Ok tt))
             (TcpServer.mk_start_env (Ok 4) (Ok tt) (Raise (OSError 98)) (Ok tt))
             (TcpServer.init 8888 "127.0.0.1" 5)).
    reflexivity.
  - apply (start_idempotent
             (TcpServer.mk_start_env (Ok 4) (Ok tt) (Raise (OSError 98)) (Ok tt))
             (TcpServer.mk_start_env (Ok 4) (Ok tt) (Raise (OSError 98)) (Ok tt))
             (TcpServer.mk 8888 "127.0.0.1" 5 true (Some 3))).
    reflexivity.
Defined.

Lemma init_propagates_bind_error_witness :
  let in_use := TcpServer.mk_start_env (Ok 3) (Ok tt) (Raise (OSError 98)) (Ok tt) in
  let fine := TcpServer.mk_start_env (Ok 3) (Ok tt) (Ok tt) (Ok tt) in
  bind_or_listen_fails in_use (OSError 98) /\
  starts fine /\
  value_of (Network.init true 8888 0 (Ok (5, 6)) in_use fine tt)
  = Raise (OSError 98) /\
  value_of (Network.init true 8888 8080 (Ok (5, 6)) fine in_use tt)
  = Raise (OSError 98).
Proof.
  assert (Hbad : bind_or_listen_fails
            (TcpServer.mk_start_env (Ok 3) (Ok tt) (Raise (OSError 98)) (Ok tt))
            (OSError 98)).
  { split; [by exists 3|]. split; [reflexivity|]. left. reflexivity. }
  assert (Hfine : starts (TcpServer.mk_start_env (Ok 3) (Ok tt) (Ok tt) (Ok tt))).
  { split; [by exists 3|]. repeat split. }
  split; [exact Hbad|]. split; [exact Hfine|]. split.
  - apply init_propagates_bind_error. left. exact Hbad.
  - apply init_propagates_bind_error. right.
    split; [exact Hfine|]. split; [lia|exact Hbad].
Defined.

(** ** Accepting a connection *)

Ltac run_network :=
  unfold Network.run_iteration, Network.tcp_server_new_socket,
    Network.the_tcp_server, Network.clean_connections, Network.modify,
    Network.sys, TcpServer.new_socket, Connection.init, Notify_init,
    TcpServer.socket_fd, try_OSError, zoom, map_events, bind, get_self,
    put_self, syscall, emit, raise, ret, value_of, state_of, trace_of;
  cbn.

(** C3 (a connection is to be accepted from the listener whose handle is
    readable and tagged with that listener's protocol), as the code has
    it: in a turn of the loop with only the HTTP listener readable, both
    listeners being bound, [accept] is called on the descriptor of the
    plain listener, and the connection made from that socket is tagged
    as HTTP. *)
Theorem run_iteration_http_ready_accepts_on_plain
    (w : Network.world) (env : Network.run_env)
    (tcp http : TcpServer.t) (a b c : Z) (fds : Z * Z) :
  Network._tcp_server (Network.net w) = Some tcp ->
  Network._http_server (Network.net w) = Some http ->
  TcpServer._listening tcp = true -> TcpServer._socket tcp = Some a ->
  TcpServer._listening http = true -> TcpServer._socket http = Some b ->
  a <> b ->
  notify_fd (Network._notify (Network.net w)) <> b ->
  Network.readable env = [b] ->
  Network.accept_answer env a = Ok c ->
  Network.pipe_answer env = Ok fds ->
  let out := Network.run_iteration env w in
  value_of out = Ok Continue /\
  trace_of out =
    [Network.Select 1; Network.Sys (Accept a); Network.Sys Pipe;
     Network.LogInfo; Network.ThreadStart (Network.ids w + 1)] /\
  Network._connections (Network.net (state_of out)) =
    Network._connections (Network.net w) ++
    [ {| Connection._notify := {| _recvfd := fds.1; _sendfd := fds.2 |};
         Connection._socket := {| fileno := c |};
         Connection._is_http := true;
         Connection._id := Network.ids w + 1 |} ].
Proof.
  intros Htcp Hhttp Hlt Hst Hlh Hsh Hab Hnb Hread Hacc Hpipe.
  destruct w as [[[nr ns] cs ts hs l] i h q]. cbn in Htcp, Hhttp, Hnb.
  subst ts hs.
  destruct tcp as [tp ta tb tl tsock], http as [hp ha hb hl hsock].
  cbn in Hlt, Hst, Hlh, Hsh. subst.
  destruct env as [rd acc pipe alive]. cbn in Hread, Hacc, Hpipe. subst.
  run_network. change (len_list [b] =? 0) with false. cbn.
  rewrite (bool_decide_eq_false_2 (nr ∈ [b]))
    by (rewrite list_elem_of_singleton; done).
  cbn.
  rewrite (bool_decide_eq_false_2 (a ∈ [b]))
    by (rewrite list_elem_of_singleton; done).
  rewrite (bool_decide_eq_true_2 (b ∈ [b]))
    by (rewrite list_elem_of_singleton; done).
  cbn. rewrite Hacc. cbn. done.
Qed.

(** ** Teardown *)

Lemma set_result_of_run (me : thread_id) (ref : nat) (result : string)
    (listening : bool) (listen_until : option datetime) (disconnect : bool)
    (w : Network.world) :
  let post := set_result me result listening listen_until disconnect in
  Network.set_result_of me ref result listening listen_until disconnect w =
    (Ok tt,
     Network.with_heap
       (<[ref := state_of (post (Network.heap w ref))]> (Network.heap w)) w,
     Network.SetResult ref result listening listen_until disconnect
     :: map (Network.OnMessage ref) (trace_of (post (Network.heap w ref)))).
Proof. reflexivity. Qed.























Lemma run_iteration_http_ready_accepts_on_plain_witness :
  Network.readable example_http_ready = [6] /\
  TcpServer.socket_fd example_http = 6 /\
  TcpServer.socket_fd example_plain = 5 /\
  trace_of (Network.run_iteration example_http_ready example_world) =
    [Network.Select 1; Network.Sys (Accept 5); Network.Sys Pipe;
     Network.LogInfo; Network.ThreadStart 3].
Proof.
  split; [reflexivity|]. split; [reflexivity|]. split; [reflexivity|].
  apply (run_iteration_http_ready_accepts_on_plain example_world
           example_http_ready example_plain example_http 5 6 35 (110, 111));
    try reflexivity; discriminate.
Defined.

(** ** A turn of a connection's loop *)

Lemma trace_bind_ok {E S A B} (c : Prog E S A) (k : A -> Prog E S B)
    (s s1 : S) (a : A) (t1 : list E) :
  c s = (Ok a, s1, t1) ->
  trace_of (bind c k s) = t1 ++ trace_of (k a s1).
Proof.
  intros H. unfold bind, trace_of. rewrite H.
  by destruct (k a s1) as [[r s2] t2].
Qed.

Lemma value_bind_ok {E S A B} (c : Prog E S A) (k : A -> Prog E S B)
    (s s1 : S) (a : A) (t1 : list E) :
  c s = (Ok a, s1, t1) ->
  value_of (bind c k s) = value_of (k a s1).
Proof.
  intros H. unfold bind, value_of. rewrite H.
  by destruct (k a s1) as [[r s2] t2].
Qed.

Lemma bind_trace {E S A B} (c : Prog E S A) (k : A -> Prog E S B) (s : S) :
  exists t2, trace_of (bind c k s) = trace_of (c s) ++ t2.
Proof.
  unfold bind, trace_of. destruct (c s) as [[[a|e] s1] t1]; cbn.
  - destruct (k a s1) as [[r s2] t2]. cbn. eauto.
  - exists []. by rewrite app_nil_r.
Qed.

(** Whatever it is fed, [add] begins by storing the accumulator. *)
Lemma add_trace_head (unquote : string -> string) (request : string)
    (m : NetMessage) :
  exists t, trace_of (add unquote request m) = Store F_request :: t.
Proof.
  unfold add. rewrite (trace_bind_ok _ _ m m m []) by reflexivity.
  cbn [app].
  match goal with
  | |- exists t, trace_of (bind ?c ?k ?s) = _ =>
      destruct (bind_trace c k s) as [t Ht]; exists t; exact Ht
  end.
Qed.

Lemma on_message_trace {A} (p : MsgProg A) (l : Connection.locals) :
  trace_of (Connection.on_message p l)
  = map Connection.OnMessage (trace_of (p (Connection.message l))).
Proof.
  unfold Connection.on_message, zoom, map_events, trace_of.
  by destruct (p (Connection.message l)) as [[r m'] t].
Qed.

(** C4 (the body of step 4 is to run only when there is new data or the
    message is in listening mode), as the code has it: in a turn of the
    loop with nothing to read and a message that is not in listening
    mode, the test is made on the tuple that [is_listening] returns,
    which is never empty, so the socket is checked all the same; an
    invalid socket ends the loop, a valid one has the empty fragment fed
    to the framer. *)
Theorem run_iteration_enters_body_without_cause
    (unquote : string -> string) (self : Connection.t) (me : thread_id)
    (env : Connection.iter_env) (l : Connection.locals) :
  let nfd := notify_fd (Connection._notify self) in
  let sfd := fileno (Connection._socket self) in
  nfd ∉ Connection.readable env ++ Connection.exceptional env ->
  sfd ∉ Connection.readable env ->
  _listening (Connection.message l) = false ->
  let out := Connection.run_iteration unquote self me env l in
  (exists rest,
     trace_of out =
       Connection.Select [nfd; sfd] [nfd; sfd] 2
       :: Connection.IsValid sfd :: rest) /\
  (Connection.valid_first env = Ok false ->
   value_of out = Ok Break /\
   trace_of out =
     [Connection.Select [nfd; sfd] [nfd; sfd] 2; Connection.IsValid sfd]) /\
  (Connection.valid_first env = Ok true ->
   exists rest,
     trace_of out =
       Connection.Select [nfd; sfd] [nfd; sfd] 2
       :: Connection.IsValid sfd
       :: Connection.OnMessage (Store F_request) :: rest).
Proof.
  intros nfd sfd Hn Hs Hl out. subst out.
  unfold Connection.run_iteration. fold nfd. fold sfd.
  rewrite (bool_decide_eq_false_2 _ Hn), (bool_decide_eq_false_2 _ Hs).
  unfold truth. cbn [orb andb].
  set (l' := {| Connection.closed :=
                  bool_decide (sfd ∈ Connection.exceptional env);
                Connection.message := Connection.message l |}).
  split_and!.
  - erewrite trace_bind_ok by reflexivity.
    erewrite (trace_bind_ok (Connection.set_closed _)) by reflexivity.
    erewrite (trace_bind_ok get_self) by reflexivity.
    cbn [app].
    match goal with
    | |- context [trace_of (bind ?c ?k ?s)] =>
        destruct (bind_trace c k s) as [t Ht]; rewrite Ht
    end.
    cbn. eauto.
  - intros Hv. rewrite Hv. split.
    + erewrite value_bind_ok by reflexivity.
      erewrite (value_bind_ok (Connection.set_closed _)) by reflexivity.
      erewrite (value_bind_ok get_self) by reflexivity.
      by erewrite (value_bind_ok (syscall _ _)) by reflexivity.
    + erewrite trace_bind_ok by reflexivity.
      erewrite (trace_bind_ok (Connection.set_closed _)) by reflexivity.
      erewrite (trace_bind_ok get_self) by reflexivity.
      by erewrite (trace_bind_ok (syscall _ _)) by reflexivity.
  - intros Hv. rewrite Hv.
    erewrite trace_bind_ok by reflexivity.
    erewrite (trace_bind_ok (Connection.set_closed _)) by reflexivity.
    erewrite (trace_bind_ok get_self) by reflexivity.
    erewrite (trace_bind_ok (syscall _ _)) by reflexivity.
    cbn [negb app].
    erewrite (trace_bind_ok (ret _)) by reflexivity.
    cbn [app].
    match goal with
    | |- context [trace_of (bind ?c ?k ?s)] =>
        destruct (bind_trace c k s) as [t Ht]; rewrite Ht
    end.
    destruct (add_trace_head unquote EmptyString (Connection.message l))
      as [ta Hta].
    rewrite on_message_trace. cbn [Connection.message].
    rewrite Hta. cbn [map app]. eauto.
Qed.

Lemma run_iteration_enters_body_without_cause_witness :
  let self := example_connection 1 in
  let l := Connection.mk_locals false (NetMessage_init false) in
  truth (is_listening (Connection.message l)) = true /\
  _listening (Connection.message l) = false /\
  Connection.run_iteration unquote_model self 7%nat (example_timeout false) l
  = (Ok Break, l,
     [Connection.Select [102; 21] [102; 21] 2; Connection.IsValid 21]) /\
  Connection.run_iteration unquote_model self 7%nat (example_timeout true) l
  = (Ok Continue, l,
     [Connection.Select [102; 21] [102; 21] 2; Connection.IsValid 21;
      Connection.OnMessage (Store F_request); Connection.IsValid 21]).
Proof.
  split; [reflexivity|]. split; [reflexivity|].
  destruct (run_iteration_enters_body_without_cause unquote_model
              (example_connection 1) 7%nat (example_timeout false)
              (Connection.mk_locals false (NetMessage_init false)))
    as (_ & Hinvalid & _).
  - cbn. by intros H%elem_of_nil.
  - cbn. by intros H%elem_of_nil.
  - reflexivity.
  - destruct (Hinvalid eq_refl) as [_ _]. split; reflexivity.
Defined.

(** ** The loop as a whole, on the scenario of the specification *)

(** A plain connection receives ["ping\n"]; while it waits, the worker
    posts ["pong"]; the reply is sent and the loop goes on. *)
Example run_ping_pong :
  let ping : Connection.iter_env :=
    {| Connection.readable := [21];
       Connection.exceptional := [];
       Connection.valid_first := Ok true;
       Connection.recv_answer := Ok ("ping" +:+ chr LF);
       Connection.before_wait := id;
       Connection.others := effect (set_result 9%nat "pong" false None false);
       Connection.valid_before_send := Ok true;
       Connection.send_answer := Ok 4;
       Connection.valid_last := Ok true |} in
  let out :=
    Connection.run unquote_model (example_connection 1) 7%nat [ping]
      (Connection.mk_locals false (NetMessage_init false)) in
  value_of out = Ok Connection.Running /\
  Connection.message (state_of out) = NetMessage_init false /\
  trace_of out =
    [Connection.Select [102; 21] [102; 21] 2;
     Connection.IsValid 21;
     Connection.Recv 21 1024;
     Connection.OnMessage (Store F_request);
     Connection.OnMessage (Store F_request);
     Connection.QueuePut;
     Connection.OnMessage (Acquire 7%nat);
     Connection.OnMessage (CvWait 7%nat);
     Connection.OnMessage (CvWoken 7%nat true);
     Connection.OnMessage (Store F_request);
     Connection.OnMessage (Store F_result);
     Connection.OnMessage (Release 7%nat);
     Connection.IsValid 21;
     Connection.Send 21 "pong";
     Connection.IsValid 21].
Proof. vm_compute. done. Qed.

(** ** More on the framer: what [find] and [rfind] answer *)

Lemma prefix_true_app (sub s : string) :
  String.prefix sub s = true -> exists b, s = sub +:+ b.
Proof.
  revert s. induction sub as [|c sub IH]; intros s H.
  - exists s. reflexivity.
  - destruct s as [|x s]; [discriminate|]. simpl in H.
    destruct (ascii_dec c x) as [->|]; [|discriminate].
    destruct (IH s H) as [b ->]. exists b. reflexivity.
Qed.

(** [find] answers [-1] exactly when the text has no occurrence. *)
Lemma find_from_none (sub s : string) (i : Z) :
  0 <= i ->
  find_from sub s i = -1 <-> (forall a b, s <> a +:+ sub +:+ b).
Proof.
  intros Hi. split.
  - intros H a b ->. by apply (find_from_found sub a b i).
  - revert i Hi. induction s as [|c s IH]; intros i Hi H.
    + cbn [find_from]. destruct (String.prefix sub EmptyString) eqn:E; [|done].
      apply prefix_true_app in E as [b E]. by destruct (H EmptyString b).
    + cbn [find_from]. destruct (String.prefix sub (String c s)) eqn:E.
      * apply prefix_true_app in E as [b E]. by destruct (H EmptyString b).
      * apply IH; [lia|]. intros a b ->. by apply (H (String c a) b).
Qed.

Lemma rfind_from_none (sub s : string) (i : Z) :
  0 <= i ->
  (forall a b, s <> a +:+ sub +:+ b) -> rfind_from sub s i = -1.
Proof.
  revert i. induction s as [|c s IH]; intros i Hi H.
  - cbn [rfind_from]. destruct (String.prefix sub EmptyString) eqn:E; [|done].
    apply prefix_true_app in E as [b E]. by destruct (H EmptyString b).
  - cbn [rfind_from]. rewrite IH; [|lia|].
    + change (-1 =? -1) with true. cbv iota.
      destruct (String.prefix sub (String c s)) eqn:E; [|done].
      apply prefix_true_app in E as [b E]. by destruct (H EmptyString b).
    + intros a b ->. by apply (H (String c a) b).
Qed.

Lemma len_zero (s : string) : len s = 0 <-> s = EmptyString.
Proof.
  unfold len. destruct s as [|c s]; [done|].
  split; [|done]. cbn [String.length]. lia.
Qed.

Section FramerMore.
Variable unquote : string -> string.

(** What [add] does when the terminator is not found. *)
Lemma add_not_found (m : NetMessage) (fragment : string) :
  let buf := _request m +:+ remove_char CR fragment in
  find buf (terminator m) = -1 ->
  add unquote fragment m =
    (Ok ((len buf =? 0) && _listening m), with_request buf m,
     [Store F_request]).
Proof.
  intros buf H. unfold add, bind, get_self, set_request, ret.
  cbn [fst snd _request _is_http _listening with_request].
  fold buf. unfold terminator in H. rewrite H. reflexivity.
Qed.

(** X1: while the accumulated text holds no terminator (a newline in
    plain mode, an empty line in HTTP mode), [add] only appends the
    fragment without its carriage returns, and it returns [False] unless
    the text is empty and the message is in listening mode. *)
Theorem add_without_terminator (m : NetMessage) (fragment : string) :
  let buf := _request m +:+ remove_char CR fragment in
  (forall a b, buf <> a +:+ terminator m +:+ b) ->
  let out := add unquote fragment m in
  value_of out = Ok ((len buf =? 0) && _listening m) /\
  state_of out = with_request buf m /\
  (buf <> EmptyString -> value_of out = Ok false).
Proof.
  intros buf H out. subst out.
  rewrite add_not_found by (by apply find_from_none).
  split_and!; [done|done|].
  intros Hne. unfold value_of. cbn. fold buf.
  destruct (Z.eqb_spec (len buf) 0) as [E|]; [|done].
  by apply len_zero in E.
Qed.

(** X2: the empty fragment on an empty accumulator, in either mode: the
    message is left as it is and the answer is its listening flag. *)
Theorem add_empty_heartbeat (m : NetMessage) :
  _request m = EmptyString ->
  let out := add unquote EmptyString m in
  value_of out = Ok (_listening m) /\ state_of out = m.
Proof.
  intros H out. subst out.
  rewrite add_not_found.
  - rewrite H. destruct m. cbn in *. by subst.
  - rewrite H. unfold terminator. by destruct (_is_http m).
Qed.

(** X3: a text that arrives in two fragments, the first of which does
    not complete a request, is framed as if it had arrived in one: the
    same answer and the same message. *)
Theorem add_fragments (m : NetMessage) (first second : string) :
  (forall a b,
     _request m +:+ remove_char CR first <> a +:+ terminator m +:+ b) ->
  let m1 := state_of (add unquote first m) in
  value_of (add unquote second m1)
  = value_of (add unquote (first +:+ second) m) /\
  state_of (add unquote second m1)
  = state_of (add unquote (first +:+ second) m).
Proof.
  intros H m1.
  assert (Hm1 : m1 = with_request (_request m +:+ remove_char CR first) m).
  { subst m1. rewrite add_not_found; [done|]. by apply find_from_none. }
  rewrite Hm1.
  unfold add, bind, get_self, set_request, ret, value_of, state_of.
  cbn [fst snd _request _is_http _listening with_request].
  rewrite remove_char_app, <- str_app_assoc.
  set (buf := (_request m +:+ remove_char CR first) +:+ remove_char CR second).
  destruct (negb _); [destruct (_is_http m)|]; cbn.
  - by destruct (negb _).
  - by destruct (_ =? len buf).
  - done.
Qed.
End FramerMore.

Lemma str_app_empty_r (s : string) : s +:+ EmptyString = s.
Proof.
  induction s as [|c s IH]; [done|]. by rewrite app_String, IH.
Qed.

Lemma contains_char_substring (c : ascii) (n : nat) (s : string) :
  contains_char c s = false ->
  contains_char c (String.substring 0 n s) = false.
Proof.
  revert n. induction s as [|x s IH]; intros n H.
  - by destruct n.
  - simpl in H. apply orb_false_iff in H as [Hx Hs].
    destruct n as [|n]; [done|]. simpl. rewrite Hx. by apply IH.
Qed.

Lemma contains_char_slice_to (c : ascii) (s : string) (stop : Z) :
  contains_char c s = false -> contains_char c (slice_to s stop) = false.
Proof. intros H. unfold slice_to. by apply contains_char_substring. Qed.

Lemma prefix_first_ne (a c : ascii) (sub t : string) :
  Ascii.eqb c a = false -> String.prefix (String a sub) (String c t) = false.
Proof.
  intros H.
  change (String.prefix (String a sub) (String c t))
    with (match ascii_dec a c with
          | left _ => String.prefix sub t
          | right _ => false
          end).
  destruct (ascii_dec a c) as [<-|]; [|done].
  by rewrite Ascii.eqb_refl in H.
Qed.

(** A text without blank has no [" HTTP/"] in it. *)
Lemma rfind_from_no_blank (t : string) (j : Z) :
  contains_char " " t = false -> rfind_from " HTTP/" t j = -1.
Proof.
  revert j. induction t as [|c t IH]; intros j H; [done|].
  simpl in H. apply orb_false_iff in H as [Hc Ht].
  cbn [rfind_from]. rewrite IH by done. change (-1 =? -1) with true.
  cbv iota. by rewrite prefix_first_ne.
Qed.

(** The last [" HTTP/"] of a line whose version holds no blank. *)
Lemma rfind_from_version (x ver : string) (i : Z) :
  contains_char " " ver = false ->
  0 <= i ->
  rfind_from " HTTP/" (x +:+ " HTTP/" +:+ ver) i = i + len x.
Proof.
  intros Hver. revert i. induction x as [|c x IH]; intros i Hi.
  - rewrite app_empty. rewrite !app_String, app_empty.
    cbn [rfind_from]. rewrite rfind_from_no_blank by (by cbn).
    change (-1 =? -1) with true. cbv iota.
    change (String " " (String "H" (String "T" (String "T" (String "P"
              (String "/" ver))))))
      with (" HTTP/" +:+ ver).
    rewrite prefix_app. unfold len. cbn. lia.
  - rewrite app_String. cbn [rfind_from]. rewrite IH by lia.
    pose proof (len_nonneg x).
    destruct (Z.eqb_spec (i + 1 + len x) (-1)); [lia|].
    unfold len. simpl String.length. lia.
Qed.

Section FramerHttp.
Variable unquote : string -> string.

(** HTTP mode, a blank line in the text: the first line, cut at its last
    [" HTTP/"] when it has one, is decoded; the rest is dropped. *)
Lemma add_http_first_line (m : NetMessage) (fragment line rest : string) :
  _is_http m = true ->
  _request m +:+ remove_char CR fragment = line +:+ String LF rest ->
  contains_char LF line = false ->
  (exists a b, line +:+ String LF rest = a +:+ String LF (chr LF) +:+ b) ->
  let out := add unquote fragment m in
  value_of out = Ok true /\
  state_of out =
    with_request
      (unquote (if rfind line " HTTP/" =? -1 then line
                else slice_to line (rfind line " HTTP/"))) m.
Proof.
  intros Hhttp Hbuf Hline (a & b & Hblank).
  unfold add, bind, get_self, set_request, ret, value_of, state_of.
  cbn [fst snd _request _is_http _listening with_request].
  rewrite Hhttp, Hbuf.
  assert (Hend : find (line +:+ String LF rest) (String LF (chr LF)) <> -1).
  { rewrite Hblank. apply find_from_found. lia. }
  assert (Hfirst : find (line +:+ String LF rest) (chr LF) = len line).
  { rewrite <- (Z.add_0_l (len line)).
    by apply (find_from_char LF line rest 0). }
  destruct (Z.eqb_spec (find (line +:+ String LF rest) (String LF (chr LF)))
                       (-1)); [done|].
  cbn -[find rfind slice_to len].
  rewrite Hfirst, slice_to_app.
  destruct (rfind line " HTTP/" =? -1); by cbn.
Qed.

(** X4: HTTP mode, a request line [head + " HTTP/" + version] followed
    by anything that brings the empty line (header lines, say): the
    stored request is the percent-decoding of [head]; the version and
    every line after the first are dropped. *)
Theorem add_http_drops_version_and_headers
    (m : NetMessage) (fragment head ver rest : string) :
  _is_http m = true ->
  _request m +:+ remove_char CR fragment
  = (head +:+ " HTTP/" +:+ ver) +:+ String LF rest ->
  contains_char LF head = false ->
  contains_char LF ver = false ->
  contains_char " " ver = false ->
  (exists a b, (head +:+ " HTTP/" +:+ ver) +:+ String LF rest
               = a +:+ String LF (chr LF) +:+ b) ->
  let out := add unquote fragment m in
  value_of out = Ok true /\
  _request (state_of out) = unquote head.
Proof.
  intros Hhttp Hbuf Hhead Hver Hblank Hend.
  assert (Hline : contains_char LF (head +:+ " HTTP/" +:+ ver) = false).
  { by rewrite !contains_char_app, Hhead, Hver. }
  destruct (add_http_first_line m fragment _ rest Hhttp Hbuf Hline Hend)
    as [Hv Hs].
  split; [done|]. rewrite Hs. cbn [_request with_request].
  assert (Hlast : rfind (head +:+ " HTTP/" +:+ ver) " HTTP/" = len head).
  { rewrite <- (Z.add_0_l (len head)).
    by apply (rfind_from_version head ver 0). }
  rewrite Hlast. pose proof (len_nonneg head).
  destruct (Z.eqb_spec (len head) (-1)); [lia|].
  by rewrite slice_to_app.
Qed.

(** X5: HTTP mode, a first line without [" HTTP/"]: nothing is cut off
    it; the stored request is the percent-decoding of the whole line. *)
Theorem add_http_line_without_version
    (m : NetMessage) (fragment line rest : string) :
  _is_http m = true ->
  _request m +:+ remove_char CR fragment = line +:+ String LF rest ->
  contains_char LF line = false ->
  (forall a b, line <> a +:+ " HTTP/" +:+ b) ->
  (exists a b, line +:+ String LF rest = a +:+ String LF (chr LF) +:+ b) ->
  let out := add unquote fragment m in
  value_of out = Ok true /\
  _request (state_of out) = unquote line.
Proof.
  intros Hhttp Hbuf Hline Hnone Hend.
  destruct (add_http_first_line m fragment line rest Hhttp Hbuf Hline Hend)
    as [Hv Hs].
  split; [done|]. rewrite Hs. cbn [_request with_request].
  unfold rfind. by rewrite rfind_from_none by (lia || done).
Qed.

(** X6: in plain mode [add] brings no carriage return into the
    accumulator: when it held none before, it holds none after. *)
Theorem add_plain_keeps_cr_out (m : NetMessage) (fragment : string) :
  _is_http m = false ->
  contains_char CR (_request m) = false ->
  contains_char CR (_request (state_of (add unquote fragment m))) = false.
Proof.
  intros Hhttp Hacc.
  assert (Hbuf : contains_char CR (_request m +:+ remove_char CR fragment)
                 = false).
  { by rewrite contains_char_app, Hacc, remove_char_absent. }
  unfold add, bind, get_self, set_request, ret, value_of, state_of.
  cbn [fst snd _request _is_http _listening with_request].
  rewrite Hhttp.
  destruct (negb _); [|done].
  destruct (_ =? len _); cbn; [|done].
  by apply contains_char_slice_to.
Qed.

(** Fragments without newline given to a plain framer only pile up. *)
Lemma feed_plain_fragments (fragments : list string) (m : NetMessage) :
  _is_http m = false ->
  contains_char LF (_request m) = false ->
  Forall (fun f => contains_char LF f = false) fragments ->
  feed unquote fragments m
  = with_request (_request m +:+ remove_char CR (joined fragments)) m.
Proof.
  intros Hhttp. revert m Hhttp.
  induction fragments as [|f fs IH]; intros m Hhttp Hacc Hall.
  - cbn [feed joined foldr]. change (remove_char CR EmptyString) with EmptyString.
    rewrite str_app_empty_r. by destruct m.
  - apply Forall_cons in Hall as [Hf Hfs]. cbn [feed].
    assert (Hbuf : contains_char LF (_request m +:+ remove_char CR f) = false).
    { rewrite contains_char_app, Hacc. by rewrite remove_char_keeps_absent. }
    rewrite add_not_found.
    2:{ apply find_from_none; [lia|]. unfold terminator. rewrite Hhttp.
        intros a b E. rewrite E in Hbuf.
        rewrite !contains_char_app in Hbuf. cbn in Hbuf.
        by rewrite orb_true_r in Hbuf. }
    unfold state_of. cbn [fst snd]. rewrite IH; [|done|done|done].
    cbn [_request with_request joined foldr]. fold (joined fs).
    destruct m; cbn. by rewrite remove_char_app, str_app_assoc.
Qed.

(** X7: a line that reaches a plain framer in pieces: after any number
    of fragments without newline, the fragment that ends the line makes
    [add] return [True], and the request is the whole line, pieces put
    together, without its carriage returns. *)
Theorem add_plain_line_in_pieces
    (m : NetMessage) (fragments : list string) (r : string) :
  _is_http m = false ->
  _request m = EmptyString ->
  Forall (fun f => contains_char LF f = false) fragments ->
  contains_char LF r = false ->
  let out := add unquote (r +:+ chr LF) (feed unquote fragments m) in
  value_of out = Ok true /\
  _request (state_of out) = remove_char CR (joined fragments +:+ r).
Proof.
  intros Hhttp Hacc Hall Hr.
  rewrite feed_plain_fragments by (done || by rewrite Hacc).
  rewrite Hacc, app_empty.
  set (m1 := with_request _ m).
  destruct (add_plain_line unquote m1 r) as [Hv Hs].
  - done.
  - subst m1. cbn. apply remove_char_keeps_absent.
    clear -Hall. induction Hall as [|f fs Hf _ IH]; [done|].
    cbn [joined foldr]. fold (joined fs).
    by rewrite contains_char_app, Hf, IH.
  - done.
  - split; [done|]. rewrite Hs. subst m1. cbn.
    by rewrite remove_char_app.
Qed.
End FramerHttp.

Lemma add_without_terminator_witness :
  let m := NetMessage_init true in
  let fragment := "GET / HTTP/1.1" +:+ CRLF +:+ "Host: x" +:+ CRLF in
  find (_request m +:+ remove_char CR fragment) (terminator m) = -1 /\
  value_of (add unquote_model fragment m) = Ok false.
Proof.
  split; [reflexivity|].
  destruct (add_without_terminator unquote_model (NetMessage_init true)
              ("GET / HTTP/1.1" +:+ CRLF +:+ "Host: x" +:+ CRLF))
    as (_ & _ & H).
  - apply (proj1 (find_from_none _ _ 0 (Z.le_refl 0))). reflexivity.
  - apply H. discriminate.
Defined.

Lemma add_empty_heartbeat_witness :
  let m := with_listening true (NetMessage_init false) in
  _request m = EmptyString /\
  value_of (add unquote_model EmptyString m) = Ok true.
Proof.
  split; [reflexivity|].
  apply (add_empty_heartbeat unquote_model
           (with_listening true (NetMessage_init false))).
  reflexivity.
Defined.

Lemma add_fragments_witness :
  let m := NetMessage_init false in
  find (_request m +:+ remove_char CR "pi") (terminator m) = -1 /\
  state_of (add unquote_model ("ng" +:+ chr LF)
              (state_of (add unquote_model "pi" m)))
  = state_of (add unquote_model ("pi" +:+ ("ng" +:+ chr LF)) m).
Proof.
  split; [reflexivity|].
  apply (add_fragments unquote_model (NetMessage_init false)
           "pi" ("ng" +:+ chr LF)).
  apply (proj1 (find_from_none _ _ 0 (Z.le_refl 0))). reflexivity.
Defined.

Lemma add_http_drops_version_and_headers_witness :
  let m := NetMessage_init true in
  let fragment :=
    "POST /a%20b HTTP/1.0" +:+ CRLF +:+ "Host: x" +:+ CRLF +:+ CRLF in
  _request m +:+ remove_char CR fragment
  = ("POST /a%20b" +:+ " HTTP/" +:+ "1.0")
      +:+ String LF ("Host: x" +:+ String LF (chr LF)) /\
  _request (state_of (add unquote_model fragment m)) = "POST /a b".
Proof.
  split; [reflexivity|].
  apply (add_http_drops_version_and_headers unquote_model
           (NetMessage_init true)
           ("POST /a%20b HTTP/1.0" +:+ CRLF +:+ "Host: x" +:+ CRLF +:+ CRLF)
           "POST /a%20b" "1.0" ("Host: x" +:+ String LF (chr LF)));
    try reflexivity.
  exists ("POST /a%20b HTTP/1.0" +:+ chr LF +:+ "Host: x"), EmptyString.
  reflexivity.
Defined.

Lemma add_http_line_without_version_witness :
  let m := NetMessage_init true in
  let fragment := "GET /x" +:+ CRLF +:+ CRLF in
  rfind "GET /x" " HTTP/" = -1 /\
  _request (state_of (add unquote_model fragment m)) = "GET /x".
Proof.
  split; [reflexivity|].
  apply (add_http_line_without_version unquote_model (NetMessage_init true)
           ("GET /x" +:+ CRLF +:+ CRLF) "GET /x" (chr LF));
    try reflexivity.
  - apply (proj1 (find_from_none _ _ 0 (Z.le_refl 0))). reflexivity.
  - exists "GET /x", EmptyString. reflexivity.
Defined.

Lemma add_plain_keeps_cr_out_witness :
  let m := NetMessage_init false in
  let fragment := "a" +:+ CRLF +:+ "b" +:+ chr CR in
  contains_char CR (_request m) = false /\
  _request (state_of (add unquote_model fragment m)) = "a" +:+ chr LF +:+ "b" /\
  contains_char CR (_request (state_of (add unquote_model fragment m)))
  = false.
Proof.
  split; [reflexivity|]. split; [reflexivity|].
  apply (add_plain_keeps_cr_out unquote_model (NetMessage_init false)
           ("a" +:+ CRLF +:+ "b" +:+ chr CR));
    reflexivity.
Defined.

Lemma add_plain_line_in_pieces_witness :
  let m := NetMessage_init false in
  Forall (fun f => contains_char LF f = false) ["pi"; "n"] /\
  _request
    (state_of (add unquote_model (("g" +:+ chr CR) +:+ chr LF)
                 (feed unquote_model ["pi"; "n"] m)))
  = "ping".
Proof.
  assert (H : Forall (fun f => contains_char LF f = false) ["pi"; "n"]).
  { repeat constructor. }
  split; [exact H|].
  apply (add_plain_line_in_pieces unquote_model (NetMessage_init false)
           ["pi"; "n"] ("g" +:+ chr CR));
    (reflexivity || exact H).
Defined.

(** ** More on the hand-off *)

Section HandOffMore.
Variable unquote : string -> string.

(** X8: one cycle does not leak into the next.  Whatever the accumulator
    holds when [get_result] is called (also text left behind a newline)
    and whatever the other threads do to the slots during its wait, it
    leaves the request empty and the result slot [None], and the next
    line fed to the plain framer is framed on its own. *)
Theorem get_result_then_add_plain_line
    (m : NetMessage) (me : thread_id) (others : NetMessage -> NetMessage)
    (r : string) :
  _is_http (others (with_waiters (_condition m ++ [me]) m)) = false ->
  _is_http m = false ->
  contains_char LF r = false ->
  let got := get_result me others m in
  let out := add unquote (r +:+ chr LF) (state_of got) in
  _request (state_of got) = EmptyString /\
  _result (state_of got) = None /\
  value_of out = Ok true /\
  _request (state_of out) = remove_char CR r.
Proof.
  intros Ho Hm Hr got out.
  assert (Hgot : _request (state_of got) = EmptyString /\
                 _result (state_of got) = None /\
                 _is_http (state_of got) = false).
  { subst got.
    unfold get_result, with_condition, bind, get_self, condition_wait,
      set_request, set__result, ret, state_of.
    destruct (_result m) eqn:E; cbn; by split_and!. }
  destruct Hgot as (Hreq & Hres & Hhttp).
  destruct (add_plain_line unquote (state_of got) r) as [Hv Hs];
    [done|by rewrite Hreq|done|].
  subst out. rewrite Hs, Hreq, app_empty. by split_and!.
Qed.

(** X9: the result slot holds one result.  When [set_result] is called
    twice before [get_result], the second post replaces the first: the
    first string is never returned, the flags are those of the second
    post, and each post has woken one waiter. *)
Theorem set_result_twice_last_wins
    (m : NetMessage) (w1 w2 me : thread_id)
    (r1 r2 : string) (l1 l2 : bool) (u1 u2 : option datetime) (d1 d2 : bool)
    (others : NetMessage -> NetMessage) :
  let posted :=
    state_of (set_result w2 r2 l2 u2 d2
                (state_of (set_result w1 r1 l1 u1 d1 m))) in
  posted = state_of (set_result w2 r2 l2 u2 d2
                       (with_waiters (drop 1 (_condition m)) m)) /\
  _condition posted = drop 2 (_condition m) /\
  value_of (get_result me others posted) = Ok (Some r2) /\
  is_listening (state_of (get_result me others posted)) = (l2, u2) /\
  is_disconnect (state_of (get_result me others posted)) = d2.
Proof.
  cbn. split_and!; try done.
  by rewrite drop_drop.
Qed.
End HandOffMore.

Lemma get_result_then_add_plain_line_witness :
  let m :=
    with_result (Some "pong")
      (with_request ("a" +:+ chr LF +:+ "left over") (NetMessage_init false)) in
  _is_http m = false /\
  _request
    (state_of (add unquote_model ("ping" +:+ chr LF)
                 (state_of (get_result 1%nat id m))))
  = "ping".
Proof.
  split; [reflexivity|].
  apply (get_result_then_add_plain_line unquote_model
           (with_result (Some "pong")
              (with_request ("a" +:+ chr LF +:+ "left over")
                 (NetMessage_init false)))
           1%nat id "ping");
    reflexivity.
Defined.

(** ** More on the listeners *)

(** X10: a new server started with every call granted: the calls are
    [socket], [setsockopt], [bind] on the given address and port, and
    [listen] with the backlog, a negative one replaced by 0; afterwards
    the server listens on the descriptor it was given, and [socket_fd]
    answers that descriptor. *)
Theorem start_new_server
    (port : Z) (addr : string) (backlog : Z)
    (env : TcpServer.start_env) (fd : Z) :
  TcpServer.socket_answer env = Ok fd ->
  TcpServer.setsockopt_answer env = Ok tt ->
  TcpServer.bind_answer env = Ok tt ->
  TcpServer.listen_answer env = Ok tt ->
  let out := TcpServer.start env (TcpServer.init port addr backlog) in
  out = (Ok tt,
         TcpServer.mk port addr (Z.max backlog 0) true (Some fd),
         [Socket; Setsockopt fd; Bind fd addr port;
          Listen fd (Z.max backlog 0)]) /\
  TcpServer.socket_fd (state_of out) = fd /\
  TcpServer.socket_fd (TcpServer.init port addr backlog) = -1.
Proof.
  intros Hs Ho Hb Hl.
  destruct env as [sa oa ba la]. cbn in Hs, Ho, Hb, Hl. subst.
  assert (Hmax : (if backlog >=? 0 then backlog else 0) = Z.max backlog 0).
  { destruct (Z.geb_spec backlog 0); lia. }
  unfold state_of, TcpServer.init. run_start. rewrite Hmax. done.
Qed.

(** X11: a [start] that fails with an [OSError] undoes itself: a server
    that was not listening and had no socket is left exactly as it was,
    the error is logged, the socket, when one had been made, is closed
    as the last thing and not before, [socket_fd] still answers [-1],
    and a later [start] whose calls are granted succeeds. *)
Theorem start_failure_cleans_up
    (env env' : TcpServer.start_env) (s : TcpServer.t) (n : Z) :
  TcpServer._listening s = false ->
  TcpServer._socket s = None ->
  value_of (TcpServer.start env s) = Raise (OSError n) ->
  let out := TcpServer.start env s in
  let addr := TcpServer._addr s in
  let port := TcpServer._port s in
  state_of out = s /\
  TcpServer.socket_fd (state_of out) = -1 /\
  (forall fd, TcpServer.socket_answer env = Ok fd ->
     trace_of out = [Socket; Setsockopt fd; LogError; Close fd] \/
     trace_of out =
       [Socket; Setsockopt fd; Bind fd addr port; LogError; Close fd] \/
     trace_of out =
       [Socket; Setsockopt fd; Bind fd addr port;
        Listen fd (TcpServer._backlog s); LogError; Close fd]) /\
  (TcpServer.socket_answer env = Raise (OSError n) ->
   trace_of out = [Socket; LogError]) /\
  (starts env' -> value_of (TcpServer.start env' (state_of out)) = Ok tt).
Proof.
  intros Hl Hs Hr out addr port.
  assert (Hstate : state_of out = s).
  { subst out. destruct s as [p a b l sk]. cbn in Hl, Hs. subst.
    destruct env as [[fd|[k|x]] [[]|[k1|x1]] [[]|[k2|x2]] [[]|[k3|x3]]];
      unfold value_of, state_of in *; revert Hr; run_start; done. }
  split_and!.
  - done.
  - rewrite Hstate. unfold TcpServer.socket_fd. by rewrite Hl.
  - intros fd Hfd. subst out addr port.
    destruct s as [p a b l sk]. cbn in Hl, Hs. subst.
    destruct env as [sa [[]|[k1|x1]] [[]|[k2|x2]] [[]|[k3|x3]]];
      cbn in Hfd; subst sa;
      unfold value_of, trace_of in *; revert Hr; run_start; try done;
      intros _; first [by left | by right; left | by right; right].
  - intros Hsa. subst out. destruct env as [sa oa ba la]. cbn in Hsa. subst sa.
    unfold trace_of. run_start. rewrite Hl. cbn. by rewrite Hs.
  - intros Hgood. rewrite Hstate. by apply start_succeeds.
Qed.

(** X12: an exception of [start] that is not an [OSError] (a port out of
    range makes [bind] raise [OverflowError]) passes the handler by:
    nothing is logged, the socket that was made is not closed and stays
    in [_socket], and the server does not listen. *)
Theorem start_other_exception_keeps_socket
    (env : TcpServer.start_env) (s : TcpServer.t) (x : string) (fd : Z) :
  TcpServer._listening s = false ->
  TcpServer.socket_answer env = Ok fd ->
  value_of (TcpServer.start env s) = Raise (OtherError x) ->
  let out := TcpServer.start env s in
  TcpServer._socket (state_of out) = Some fd /\
  TcpServer._listening (state_of out) = false /\
  TcpServer.socket_fd (state_of out) = -1 /\
  (Close fd ∉ trace_of out) /\
  (LogError ∉ trace_of out).
Proof.
  intros Hl Hfd Hr out. subst out.
  destruct s as [p a b l sk]. cbn in Hl. subst l.
  destruct env as [sa [[]|[k1|x1]] [[]|[k2|x2]] [[]|[k3|x3]]];
    cbn in Hfd; subst sa;
    unfold value_of, state_of, trace_of, TcpServer.socket_fd in *;
    revert Hr; run_start; try done; intros _;
    (split_and!; [done|done|done|..]);
    rewrite !not_elem_of_cons; split_and!; try done; apply not_elem_of_nil.
Qed.

(** X13: [new_socket] leaves the server as it is and never raises an
    [OSError]; on a server that does not listen it answers [None]
    without calling [accept]; on one that listens it calls [accept] once
    on the server's socket and answers the new socket, or [None] when
    the call fails with an [OSError]. *)
Theorem new_socket_outcomes
    (accept_answer : Z -> result Z) (s : TcpServer.t) :
  let out := TcpServer.new_socket accept_answer s in
  state_of out = s /\
  (forall n, value_of out <> Raise (OSError n)) /\
  (TcpServer._listening s = false -> out = (Ok None, s, [])) /\
  (forall fd,
     TcpServer._listening s = true -> TcpServer._socket s = Some fd ->
     trace_of out = [Accept fd] /\
     (forall c, accept_answer fd = Ok c ->
        value_of out = Ok (Some {| fileno := c |})) /\
     (forall k, accept_answer fd = Raise (OSError k) ->
        value_of out = Ok None)).
Proof.
  unfold TcpServer.new_socket, try_OSError, bind, get_self, syscall, raise,
    ret, value_of, state_of, trace_of.
  destruct s as [p a b [|] [fd|]]; cbn.
  - destruct (accept_answer fd) as [c|[k|x]] eqn:E; cbn;
      split_and!; try done.
    all: intros fd' _ [= <-]; rewrite E; split_and!; try done; congruence.
  - split_and!; done.
  - split_and!; done.
  - split_and!; done.
Qed.

Lemma start_new_server_witness :
  let env := TcpServer.mk_start_env (Ok 7) (Ok tt) (Ok tt) (Ok tt) in
  TcpServer.socket_answer env = Ok 7 /\
  trace_of (TcpServer.start env (TcpServer.init 8888 "127.0.0.1" (-3))) =
    [Socket; Setsockopt 7; Bind 7 "127.0.0.1" 8888; Listen 7 0].
Proof.
  split; [reflexivity|].
  destruct (start_new_server 8888 "127.0.0.1" (-3)
              (TcpServer.mk_start_env (Ok 7) (Ok tt) (Ok tt) (Ok tt)) 7)
    as [H _]; try reflexivity.
Defined.

Lemma start_failure_cleans_up_witness :
  let in_use :=
    TcpServer.mk_start_env (Ok 7) (Ok tt) (Raise (OSError 98)) (Ok tt) in
  let s := TcpServer.init 8888 "127.0.0.1" 5 in
  value_of (TcpServer.start in_use s) = Raise (OSError 98) /\
  state_of (TcpServer.start in_use s) = s /\
  trace_of (TcpServer.start in_use s) =
    [Socket; Setsockopt 7; Bind 7 "127.0.0.1" 8888; LogError; Close 7].
Proof.
  split; [reflexivity|].
  destruct (start_failure_cleans_up
              (TcpServer.mk_start_env (Ok 7) (Ok tt) (Raise (OSError 98)) (Ok tt))
              (TcpServer.mk_start_env (Ok 7) (Ok tt) (Ok tt) (Ok tt))
              (TcpServer.init 8888 "127.0.0.1" 5) 98)
    as (Hstate & _); try reflexivity.
  split; [exact Hstate|reflexivity].
Defined.

Lemma start_other_exception_keeps_socket_witness :
  let bad_port :=
    TcpServer.mk_start_env (Ok 7) (Ok tt)
      (Raise (OtherError "OverflowError")) (Ok tt) in
  let s := TcpServer.init 70000 "127.0.0.1" 5 in
  value_of (TcpServer.start bad_port s) = Raise (OtherError "OverflowError") /\
  TcpServer._socket (state_of (TcpServer.start bad_port s)) = Some 7.
Proof.
  split; [reflexivity|].
  apply (start_other_exception_keeps_socket
           (TcpServer.mk_start_env (Ok 7) (Ok tt)
              (Raise (OtherError "OverflowError")) (Ok tt))
           (TcpServer.init 70000 "127.0.0.1" 5) "OverflowError" 7);
    reflexivity.
Defined.

Lemma new_socket_outcomes_witness :
  TcpServer._listening example_plain = true /\
  value_of (TcpServer.new_socket (fun _ => Raise (OSError 11)) example_plain)
  = Ok None /\
  TcpServer.new_socket (fun fd => Ok (30 + fd))
    (TcpServer.init 8888 "127.0.0.1" 5)
  = (Ok None, TcpServer.init 8888 "127.0.0.1" 5, []).
Proof.
  split; [reflexivity|]. split.
  - destruct (new_socket_outcomes (fun _ => Raise (OSError 11)) example_plain)
      as (_ & _ & _ & H).
    destruct (H 5 eq_refl eq_refl) as (_ & _ & Hfail).
    apply (Hfail 11). reflexivity.
  - destruct (new_socket_outcomes (fun fd => Ok (30 + fd))
                (TcpServer.init 8888 "127.0.0.1" 5))
      as (_ & _ & H & _).
    apply H. reflexivity.
Defined.

(** ** More on a turn of a connection's loop *)

Ltac run_connection :=
  unfold Connection.run_iteration, Connection.on_message,
    Connection.set_closed, Connection.meanwhile, Connection.send, zoom,
    map_events, bind, get_self,
    syscall, emit, raise, ret;
  cbn -[add get_result].

(** What [get_result] does when the slot is empty: it waits. *)
Lemma get_result_waits (me : thread_id) (others : NetMessage -> NetMessage)
    (m : NetMessage) :
  _result m = None ->
  let seen := others (with_waiters (_condition m ++ [me]) m) in
  get_result me others m =
    (Ok (_result seen),
     with_result None
       (with_request EmptyString
          (with_waiters (List.remove Nat.eq_dec me (_condition seen)) seen)),
     [Acquire me; CvWait me;
      CvWoken me (negb (bool_decide (me ∈ _condition seen)));
      Store F_request; Store F_result; Release me]).
Proof.
  intros H seen.
  unfold get_result, with_condition, bind, get_self, condition_wait,
    set_request, set__result, ret.
  rewrite H. reflexivity.
Qed.

(** What [get_result] does when the slot is filled: it does not wait. *)
Lemma get_result_at_once (me : thread_id) (others : NetMessage -> NetMessage)
    (m : NetMessage) (res : string) :
  _result m = Some res ->
  get_result me others m =
    (Ok (Some res), with_result None (with_request EmptyString m),
     [Acquire me; Store F_request; Store F_result; Release me]).
Proof.
  intros H.
  unfold get_result, with_condition, bind, get_self, set_request,
    set__result, ret.
  rewrite H. cbn. by rewrite H.
Qed.

(** A caller that a notify took off the waiters is not to be removed
    from them. *)
Lemma remove_absent (me : thread_id) (waiters : list thread_id) :
  me ∉ waiters -> List.remove Nat.eq_dec me waiters = waiters.
Proof. intros H. apply notin_remove. by rewrite <- list_elem_of_In. Qed.

Section ConnectionMore.
Variable unquote : string -> string.
Variables (self : Connection.t) (me : thread_id).

Let nfd : Z := notify_fd (Connection._notify self).
Let sfd : Z := fileno (Connection._socket self).
Let select_event : Connection.event :=
  Connection.Select [nfd; sfd] [nfd; sfd] 2.

(** The plain framer on one whole line, with its events. *)
Lemma add_plain_line_run (m : NetMessage) (r : string) :
  _is_http m = false ->
  contains_char LF (_request m) = false ->
  contains_char LF r = false ->
  add unquote (r +:+ chr LF) m =
    (Ok true, with_request (_request m +:+ remove_char CR r) m,
     [Store F_request; Store F_request]).
Proof.
  intros Hhttp Hacc Hr.
  set (line := _request m +:+ remove_char CR r).
  assert (Hbuf : _request m +:+ remove_char CR (r +:+ chr LF)
                 = line +:+ chr LF).
  { rewrite remove_char_app. unfold line. by rewrite str_app_assoc. }
  assert (Hline : contains_char LF line = false).
  { unfold line. rewrite contains_char_app, Hacc.
    by rewrite remove_char_keeps_absent. }
  assert (Hfind : find (line +:+ chr LF) (chr LF) = len line).
  { rewrite <- (Z.add_0_l (len line)).
    by apply (find_from_char LF line EmptyString 0). }
  unfold add, bind, get_self, set_request, ret.
  cbn [fst snd _request _is_http _listening with_request].
  rewrite Hhttp, Hbuf, Hfind, len_app.
  pose proof (len_nonneg line).
  destruct (Z.eqb_spec (len line) (-1)); [lia|].
  change (len (chr LF)) with 1. rewrite Z.eqb_refl.
  cbn. by rewrite slice_to_app.
Qed.

(** A turn in which the framer completes a request and a result comes. *)
Lemma run_iteration_complete
    (env : Connection.iter_env) (l : Connection.locals)
    (data : string) (m1 m2 : NetMessage) (ta tg : list msg_event)
    (res : string) (sent : Z) (vl : bool) :
  nfd ∉ Connection.readable env ++ Connection.exceptional env ->
  Connection.valid_first env = Ok true ->
  ((sfd ∈ Connection.readable env) /\
   Connection.recv_answer env = Ok data /\ data <> EmptyString) \/
  ((sfd ∉ Connection.readable env) /\ data = EmptyString) ->
  add unquote data (Connection.message l) = (Ok true, m1, ta) ->
  get_result me (Connection.others env) (Connection.before_wait env m1)
  = (Ok (Some res), m2, tg) ->
  Connection.valid_before_send env = Ok true ->
  Connection.send_answer env = Ok sent ->
  Connection.valid_last env = Ok vl ->
  Connection.run_iteration unquote self me env l =
    (Ok (if _disconnect m2 || negb vl then Break else Continue),
     {| Connection.closed := bool_decide (sfd ∈ Connection.exceptional env);
        Connection.message := m2 |},
     [select_event; Connection.IsValid sfd]
     ++ (if bool_decide (sfd ∈ Connection.readable env)
         then [Connection.Recv sfd 1024] else [])
     ++ map Connection.OnMessage ta
     ++ [Connection.QueuePut]
     ++ map Connection.OnMessage tg
     ++ [Connection.IsValid sfd; Connection.Send sfd res]
     ++ (if _disconnect m2 then [] else [Connection.IsValid sfd])).
Proof.
  intros Hn Hv Hd Hadd Hget Hvs Hs Hvl.
  run_connection. fold nfd sfd.
  rewrite (bool_decide_eq_false_2 _ Hn), Hv. cbn -[add get_result].
  destruct Hd as [(Hin & Hrecv & Hne)|(Hout & ->)].
  - rewrite (bool_decide_eq_true_2 _ Hin), Hrecv. cbn -[add get_result].
    destruct (Z.eqb_spec (len data) 0) as [E|_];
      [by apply len_zero in E|].
    cbn [Connection.message Connection.closed]. rewrite Hadd. cbn -[add get_result]. rewrite Hget, Hvs, Hs.
    cbn -[add get_result]. unfold is_disconnect.
    destruct (_disconnect m2); cbn; [by rewrite ?app_nil_r, <- ?app_assoc|].
    rewrite Hvl. destruct vl; cbn; by rewrite <- ?app_assoc.
  - rewrite (bool_decide_eq_false_2 _ Hout). cbn -[add get_result].
    cbn [Connection.message Connection.closed]. rewrite Hadd. cbn -[add get_result]. rewrite Hget, Hvs, Hs.
    cbn -[add get_result]. unfold is_disconnect.
    destruct (_disconnect m2); cbn; [by rewrite ?app_nil_r, <- ?app_assoc|].
    rewrite Hvl. destruct vl; cbn; by rewrite <- ?app_assoc.
Qed.

(** X14: the shutdown notification comes first.  When the wake handle
    is readable or in error, the turn ends the loop at once: the socket
    is not looked at, even when it has data, and the message is left as
    it is. *)
Theorem run_iteration_shutdown_first
    (env : Connection.iter_env) (l : Connection.locals) :
  nfd ∈ Connection.readable env ++ Connection.exceptional env ->
  Connection.run_iteration unquote self me env l
  = (Ok Break, l, [select_event]).
Proof.
  intros H. run_connection. fold nfd sfd.
  by rewrite (bool_decide_eq_true_2 _ H).
Qed.

(** X15: a readable socket that yields no data (the peer has closed)
    ends the loop, and a [recv] that raises ends the thread with that
    exception; in both cases nothing is fed to the framer and nothing is
    put on the queue. *)
Theorem run_iteration_peer_closed
    (env : Connection.iter_env) (l : Connection.locals) :
  nfd ∉ Connection.readable env ++ Connection.exceptional env ->
  sfd ∈ Connection.readable env ->
  Connection.valid_first env = Ok true ->
  let l' := {| Connection.closed :=
                 bool_decide (sfd ∈ Connection.exceptional env);
               Connection.message := Connection.message l |} in
  let events :=
    [select_event; Connection.IsValid sfd; Connection.Recv sfd 1024] in
  (Connection.recv_answer env = Ok EmptyString ->
   Connection.run_iteration unquote self me env l = (Ok Break, l', events)) /\
  (forall e, Connection.recv_answer env = Raise e ->
   Connection.run_iteration unquote self me env l = (Raise e, l', events)).
Proof.
  intros Hn Hin Hv l' events. split.
  - intros Hr. run_connection. fold nfd sfd.
    by rewrite (bool_decide_eq_false_2 _ Hn), Hv,
      (bool_decide_eq_true_2 _ Hin), Hr.
  - intros e Hr. run_connection. fold nfd sfd.
    by rewrite (bool_decide_eq_false_2 _ Hn), Hv,
      (bool_decide_eq_true_2 _ Hin), Hr.
Qed.

(** The hand-over of a queued message, in both schedules: the result
    is there when [get_result] takes the lock, or it comes, with its
    notify, while [get_result] waits. *)
Lemma get_result_handed
    (env : Connection.iter_env) (queued : NetMessage) (res : string) :
  let handed := Connection.before_wait env queued in
  let seen :=
    Connection.others env (with_waiters (_condition handed ++ [me]) handed) in
  let answer := if _result handed is Some _ then handed else seen in
  _result handed = Some res \/
  (_result handed = None /\ (me ∉ _condition seen) /\
   _result seen = Some res) ->
  get_result me (Connection.others env) handed =
    (Ok (Some res), with_result None (with_request EmptyString answer),
     Acquire me
     :: (if _result handed is Some _ then []
         else [CvWait me; CvWoken me true])
     ++ [Store F_request; Store F_result; Release me]).
Proof.
  intros handed seen answer [Hearly|(Hnone & Hwoken & Hseen)]; subst answer.
  - rewrite (get_result_at_once me _ handed res Hearly). by rewrite Hearly.
  - rewrite (get_result_waits me _ handed Hnone). cbn zeta. fold seen.
    rewrite Hnone, Hseen, (remove_absent _ _ Hwoken),
      (bool_decide_eq_false_2 _ Hwoken).
    by destruct seen.
Qed.

(** X16: a request and its reply on a plain connection.  A line [r] and
    its newline arrive; the message is put on the queue with the request
    [r], carriage returns removed.  From then on the other threads have
    it: when the result [res] is already posted as [get_result] takes
    the lock, the connection does not wait; otherwise it waits, and
    goes on once a post has notified it.  In both schedules [res] is
    what is sent, the message ends with an empty request and an empty
    result slot, and the loop ends when the post asked for a disconnect
    or the socket has become invalid, and goes on otherwise. *)
Theorem run_iteration_request_reply
    (env : Connection.iter_env) (l : Connection.locals)
    (r res : string) (sent : Z) (vl : bool) :
  let m := Connection.message l in
  let queued := with_request (_request m +:+ remove_char CR r) m in
  let handed := Connection.before_wait env queued in
  let seen :=
    Connection.others env (with_waiters (_condition handed ++ [me]) handed) in
  let answer := if _result handed is Some _ then handed else seen in
  nfd ∉ Connection.readable env ++ Connection.exceptional env ->
  sfd ∈ Connection.readable env ->
  Connection.valid_first env = Ok true ->
  Connection.recv_answer env = Ok (r +:+ chr LF) ->
  contains_char LF r = false ->
  _is_http m = false ->
  contains_char LF (_request m) = false ->
  _result handed = Some res \/
  (_result handed = None /\ (me ∉ _condition seen) /\
   _result seen = Some res) ->
  Connection.valid_before_send env = Ok true ->
  Connection.send_answer env = Ok sent ->
  Connection.valid_last env = Ok vl ->
  Connection.run_iteration unquote self me env l =
    (Ok (if _disconnect answer || negb vl then Break else Continue),
     {| Connection.closed := bool_decide (sfd ∈ Connection.exceptional env);
        Connection.message :=
          with_result None (with_request EmptyString answer) |},
     [select_event; Connection.IsValid sfd; Connection.Recv sfd 1024;
      Connection.OnMessage (Store F_request);
      Connection.OnMessage (Store F_request);
      Connection.QueuePut;
      Connection.OnMessage (Acquire me)]
     ++ (if _result handed is Some _ then []
         else [Connection.OnMessage (CvWait me);
               Connection.OnMessage (CvWoken me true)])
     ++ [Connection.OnMessage (Store F_request);
         Connection.OnMessage (Store F_result);
         Connection.OnMessage (Release me);
         Connection.IsValid sfd; Connection.Send sfd res]
     ++ (if _disconnect answer then [] else [Connection.IsValid sfd])).
Proof.
  intros m queued handed seen answer Hn Hin Hv Hrecv Hr Hhttp Hacc Hres
    Hvs Hs Hvl.
  pose proof (add_plain_line_run m r Hhttp Hacc Hr) as Hadd.
  pose proof (get_result_handed env queued res Hres) as Hget.
  cbn zeta in Hget. fold handed seen answer in Hget.
  assert (Hdata : ((sfd ∈ Connection.readable env) /\
                   Connection.recv_answer env = Ok (r +:+ chr LF) /\
                   r +:+ chr LF <> EmptyString) \/
                  ((sfd ∉ Connection.readable env) /\
                   r +:+ chr LF = EmptyString)).
  { left. split_and!; [done|done|]. by destruct r. }
  rewrite (run_iteration_complete env l _ _ _ _ _ _ sent vl
             Hn Hv Hdata Hadd Hget Hvs Hs Hvl).
  rewrite (bool_decide_eq_true_2 _ Hin).
  by destruct (_result handed).
Qed.

(** The framer on the empty fragment and an empty accumulator, with its
    events. *)
Lemma add_empty_run (m : NetMessage) :
  _request m = EmptyString ->
  add unquote EmptyString m = (Ok (_listening m), m, [Store F_request]).
Proof.
  intros H. rewrite add_not_found.
  - rewrite H. destruct m. cbn in *. by subst.
  - rewrite H. unfold terminator. by destruct (_is_http m).
Qed.

(** X17: the listening heartbeat.  In a turn without data, a message in
    listening mode whose accumulator is empty goes on the queue again,
    with an empty request, in either mode.  When its result is already
    posted as [get_result] takes the lock the connection does not wait;
    otherwise it waits, and goes on once a post has notified it.  In
    both schedules the posted string is sent to the client, which has
    sent nothing. *)
Theorem run_iteration_listening_heartbeat
    (env : Connection.iter_env) (l : Connection.locals)
    (res : string) (sent : Z) (vl : bool) :
  let m := Connection.message l in
  let handed := Connection.before_wait env m in
  let seen :=
    Connection.others env (with_waiters (_condition handed ++ [me]) handed) in
  let answer := if _result handed is Some _ then handed else seen in
  nfd ∉ Connection.readable env ++ Connection.exceptional env ->
  sfd ∉ Connection.readable env ->
  Connection.valid_first env = Ok true ->
  _listening m = true ->
  _request m = EmptyString ->
  _result handed = Some res \/
  (_result handed = None /\ (me ∉ _condition seen) /\
   _result seen = Some res) ->
  Connection.valid_before_send env = Ok true ->
  Connection.send_answer env = Ok sent ->
  Connection.valid_last env = Ok vl ->
  Connection.run_iteration unquote self me env l =
    (Ok (if _disconnect answer || negb vl then Break else Continue),
     {| Connection.closed := bool_decide (sfd ∈ Connection.exceptional env);
        Connection.message :=
          with_result None (with_request EmptyString answer) |},
     [select_event; Connection.IsValid sfd;
      Connection.OnMessage (Store F_request);
      Connection.QueuePut;
      Connection.OnMessage (Acquire me)]
     ++ (if _result handed is Some _ then []
         else [Connection.OnMessage (CvWait me);
               Connection.OnMessage (CvWoken me true)])
     ++ [Connection.OnMessage (Store F_request);
         Connection.OnMessage (Store F_result);
         Connection.OnMessage (Release me);
         Connection.IsValid sfd; Connection.Send sfd res]
     ++ (if _disconnect answer then [] else [Connection.IsValid sfd])).
Proof.
  intros m handed seen answer Hn Hout Hv Hlis Hacc Hres Hvs Hs Hvl.
  pose proof (add_empty_run m Hacc) as Hadd. rewrite Hlis in Hadd.
  pose proof (get_result_handed env m res Hres) as Hget.
  cbn zeta in Hget. fold handed seen answer in Hget.
  assert (Hdata : ((sfd ∈ Connection.readable env) /\
                   Connection.recv_answer env = Ok EmptyString /\
                   EmptyString <> EmptyString) \/
                  ((sfd ∉ Connection.readable env) /\
                   EmptyString = EmptyString)).
  { by right. }
  rewrite (run_iteration_complete env l _ _ _ _ _ _ sent vl
             Hn Hv Hdata Hadd Hget Hvs Hs Hvl).
  rewrite (bool_decide_eq_false_2 _ Hout).
  by destruct (_result handed).
Qed.

(** X18: data that does not complete a request.  The fragment is added
    to the accumulator, carriage returns removed; nothing is put on the
    queue, nothing is sent, and the loop goes on unless the socket has
    become invalid or the disconnect flag is set. *)
Theorem run_iteration_incomplete_request
    (env : Connection.iter_env) (l : Connection.locals)
    (data : string) (vl : bool) :
  let m := Connection.message l in
  let buf := _request m +:+ remove_char CR data in
  nfd ∉ Connection.readable env ++ Connection.exceptional env ->
  sfd ∈ Connection.readable env ->
  Connection.valid_first env = Ok true ->
  Connection.recv_answer env = Ok data ->
  data <> EmptyString ->
  (forall a b, buf <> a +:+ terminator m +:+ b) ->
  buf <> EmptyString ->
  Connection.valid_last env = Ok vl ->
  Connection.run_iteration unquote self me env l =
    (Ok (if _disconnect m || negb vl then Break else Continue),
     {| Connection.closed := bool_decide (sfd ∈ Connection.exceptional env);
        Connection.message := with_request buf m |},
     [select_event; Connection.IsValid sfd; Connection.Recv sfd 1024;
      Connection.OnMessage (Store F_request)]
     ++ (if _disconnect m then [] else [Connection.IsValid sfd])).
Proof.
  intros m buf Hn Hin Hv Hrecv Hdata Hnone Hbuf Hvl.
  assert (Hadd : add unquote data m
                 = (Ok false, with_request buf m, [Store F_request])).
  { rewrite add_not_found by (by apply find_from_none). fold buf.
    destruct (Z.eqb_spec (len buf) 0) as [E|_]; [|done].
    by apply len_zero in E. }
  run_connection. fold nfd sfd.
  rewrite (bool_decide_eq_false_2 _ Hn), Hv, (bool_decide_eq_true_2 _ Hin),
    Hrecv.
  cbn -[add get_result].
  destruct (Z.eqb_spec (len data) 0) as [E|_]; [by apply len_zero in E|].
  cbn [Connection.message Connection.closed]. fold m. rewrite Hadd.
  cbn. unfold is_disconnect.
  destruct (_disconnect m); cbn; [done|].
  rewrite Hvl. by destruct vl.
Qed.

(** One turn of the loop and what follows it. *)
Lemma run_loop_cons
    (env : Connection.iter_env) (rest : list Connection.iter_env)
    (l : Connection.locals) :
  Connection.closed l = false ->
  Connection.run_loop unquote self me (env :: rest) l =
    match Connection.run_iteration unquote self me env l with
    | (Ok Break, l', t) => (Ok Connection.Ended, l', t ++ [Connection.LogInfo])
    | (Ok Continue, l', t) =>
        match Connection.run_loop unquote self me rest l' with
        | (r, l'', t') => (r, l'', t ++ t')
        end
    | (Raise e, l', t) => (Raise e, l', t)
    end.
Proof.
  intros Hc. cbn [Connection.run_loop]. unfold bind, get_self, emit, ret.
  rewrite Hc.
  destruct (Connection.run_iteration unquote self me env l)
    as [[[[|]|e] l'] t]; try reflexivity.
  by destruct (Connection.run_loop unquote self me rest l') as [[r l''] t'].
Qed.

(** X19: the loop ends for good.  When a turn ends with [break], or
    leaves the closed flag set because the socket was in the error set,
    the loop is over after it: the thread logs the end, and what
    [select] would report later is never looked at; an exception in a
    turn ends the thread without the log line. *)
Theorem run_loop_ends
    (env : Connection.iter_env) (rest : list Connection.iter_env)
    (l l' : Connection.locals) (events : list Connection.event) :
  Connection.closed l = false ->
  (Connection.run_iteration unquote self me env l = (Ok Break, l', events) ->
   Connection.run_loop unquote self me (env :: rest) l
   = (Ok Connection.Ended, l', events ++ [Connection.LogInfo])) /\
  (Connection.run_iteration unquote self me env l = (Ok Continue, l', events) ->
   Connection.closed l' = true ->
   Connection.run_loop unquote self me (env :: rest) l
   = (Ok Connection.Ended, l', events ++ [Connection.LogInfo])) /\
  (forall e,
   Connection.run_iteration unquote self me env l = (Raise e, l', events) ->
   Connection.run_loop unquote self me (env :: rest) l
   = (Raise e, l', events)).
Proof.
  intros Hc. split_and!.
  - intros H. by rewrite run_loop_cons, H.
  - intros H Hc'. rewrite run_loop_cons, H by done.
    destruct rest; cbn [Connection.run_loop];
      unfold bind, get_self, emit, ret; by rewrite Hc'.
  - intros e H. by rewrite run_loop_cons, H.
Qed.
End ConnectionMore.

(** A descriptor that [select] did not report. *)
Ltac absent :=
  let H := fresh in
  vm_compute; intros H;
  repeat (apply elem_of_cons in H as [H|H]; [discriminate H|]);
  by apply elem_of_nil in H.

Lemma run_iteration_shutdown_first_witness :
  let env := example_turn [21; 102] [] (Ok ("ping" +:+ chr LF)) id in
  102 ∈ Connection.readable env ++ Connection.exceptional env /\
  Connection.run_iteration unquote_model (example_connection 1) 7%nat env
    (fresh_locals false)
  = (Ok Break, fresh_locals false,
     [Connection.Select [102; 21] [102; 21] 2]).
Proof.
  assert (H : 102 ∈ [21; 102] ++ []) by (right; left).
  split; [exact H|].
  apply (run_iteration_shutdown_first unquote_model (example_connection 1)
           7%nat (example_turn [21; 102] [] (Ok ("ping" +:+ chr LF)) id)
           (fresh_locals false)).
  exact H.
Defined.

Lemma run_iteration_peer_closed_witness :
  let env := example_turn [21] [] (Ok EmptyString) id in
  21 ∈ Connection.readable env /\
  Connection.run_iteration unquote_model (example_connection 1) 7%nat env
    (fresh_locals false)
  = (Ok Break, fresh_locals false,
     [Connection.Select [102; 21] [102; 21] 2; Connection.IsValid 21;
      Connection.Recv 21 1024]).
Proof.
  assert (H : 21 ∈ [21]) by left.
  split; [exact H|].
  apply (run_iteration_peer_closed unquote_model (example_connection 1)
           7%nat (example_turn [21] [] (Ok EmptyString) id)
           (fresh_locals false)).
  - absent.
  - exact H.
  - reflexivity.
  - reflexivity.
Defined.

Lemma run_iteration_request_reply_witness :
  let env :=
    example_turn [21] [] (Ok (("ping" +:+ chr CR) +:+ chr LF))
      (effect (set_result 9%nat "pong" false None true)) in
  let queued := with_request "ping" (NetMessage_init false) in
  let seen := Connection.others env (with_waiters [7%nat] queued) in
  21 ∈ Connection.readable env /\
  _result (Connection.before_wait env queued) = None /\
  (7%nat ∉ _condition seen) /\
  _result seen = Some "pong" /\
  Connection.run_iteration unquote_model (example_connection 1) 7%nat env
    (fresh_locals false)
  = (Ok Break,
     Connection.mk_locals false (with_disconnect true (NetMessage_init false)),
     [Connection.Select [102; 21] [102; 21] 2; Connection.IsValid 21;
      Connection.Recv 21 1024;
      Connection.OnMessage (Store F_request);
      Connection.OnMessage (Store F_request);
      Connection.QueuePut;
      Connection.OnMessage (Acquire 7%nat);
      Connection.OnMessage (CvWait 7%nat);
      Connection.OnMessage (CvWoken 7%nat true);
      Connection.OnMessage (Store F_request);
      Connection.OnMessage (Store F_result);
      Connection.OnMessage (Release 7%nat);
      Connection.IsValid 21; Connection.Send 21 "pong"]).
Proof.
  assert (H : 21 ∈ [21]) by left.
  assert (Hwoken : 7%nat ∉ _condition
            (effect (set_result 9%nat "pong" false None true)
               (with_waiters [7%nat]
                  (with_request "ping" (NetMessage_init false))))).
  { cbn. by intros H'%elem_of_nil. }
  cbn zeta. split; [exact H|]. split; [reflexivity|].
  split; [exact Hwoken|]. split; [reflexivity|].
  rewrite (run_iteration_request_reply unquote_model (example_connection 1)
             7%nat
             (example_turn [21] [] (Ok (("ping" +:+ chr CR) +:+ chr LF))
                (effect (set_result 9%nat "pong" false None true)))
             (fresh_locals false) ("ping" +:+ chr CR) "pong" 4 true).
  - reflexivity.
  - absent.
  - exact H.
  - reflexivity.
  - reflexivity.
  - reflexivity.
  - reflexivity.
  - reflexivity.
  - right. split; [reflexivity|]. split; [exact Hwoken|reflexivity].
  - reflexivity.
  - reflexivity.
  - reflexivity.
Defined.

Lemma run_iteration_listening_heartbeat_witness :
  let env := example_turn_posted [] [] (Ok EmptyString)
               (mk_post 9%nat "update" true (Some 5) false) in
  let l :=
    Connection.mk_locals false (with_listening true (NetMessage_init true)) in
  _listening (Connection.message l) = true /\
  _result (Connection.before_wait env (Connection.message l))
  = Some "update" /\
  Connection.run_iteration unquote_model (example_connection 1) 7%nat env l
  = (Ok Continue,
     Connection.mk_locals false
       (with_listen_since (Some 5)
          (with_listening true (NetMessage_init true))),
     [Connection.Select [102; 21] [102; 21] 2; Connection.IsValid 21;
      Connection.OnMessage (Store F_request);
      Connection.QueuePut;
      Connection.OnMessage (Acquire 7%nat);
      Connection.OnMessage (Store F_request);
      Connection.OnMessage (Store F_result);
      Connection.OnMessage (Release 7%nat);
      Connection.IsValid 21; Connection.Send 21 "update";
      Connection.IsValid 21]).
Proof.
  cbn zeta. split; [reflexivity|]. split; [reflexivity|].
  rewrite (run_iteration_listening_heartbeat unquote_model
             (example_connection 1) 7%nat
             (example_turn_posted [] [] (Ok EmptyString)
                (mk_post 9%nat "update" true (Some 5) false))
             (Connection.mk_locals false
                (with_listening true (NetMessage_init true)))
             "update" 4 true).
  - reflexivity.
  - absent.
  - absent.
  - reflexivity.
  - reflexivity.
  - reflexivity.
  - left. reflexivity.
  - reflexivity.
  - reflexivity.
  - reflexivity.
Defined.

Lemma run_iteration_incomplete_request_witness :
  let env := example_turn [21] [] (Ok "GET / HTT") id in
  21 ∈ Connection.readable env /\
  Connection.run_iteration unquote_model (example_connection 1) 7%nat env
    (fresh_locals true)
  = (Ok Continue,
     Connection.mk_locals false
       (with_request "GET / HTT" (NetMessage_init true)),
     [Connection.Select [102; 21] [102; 21] 2; Connection.IsValid 21;
      Connection.Recv 21 1024; Connection.OnMessage (Store F_request);
      Connection.IsValid 21]).
Proof.
  assert (H : 21 ∈ [21]) by left.
  split; [exact H|].
  apply (run_iteration_incomplete_request unquote_model
           (example_connection 1) 7%nat
           (example_turn [21] [] (Ok "GET / HTT") id)
           (fresh_locals true) "GET / HTT" true).
  - absent.
  - exact H.
  - reflexivity.
  - reflexivity.
  - discriminate.
  - apply (proj1 (find_from_none _ _ 0 (Z.le_refl 0))). reflexivity.
  - discriminate.
  - reflexivity.
Defined.

Lemma run_loop_ends_witness :
  let hang_up := example_turn [21] [] (Ok EmptyString) id in
  let later := example_turn [21] [] (Ok ("ping" +:+ chr LF)) id in
  Connection.closed (fresh_locals false) = false /\
  Connection.run_loop unquote_model (example_connection 1) 7%nat
    [hang_up; later] (fresh_locals false)
  = (Ok Connection.Ended, fresh_locals false,
     [Connection.Select [102; 21] [102; 21] 2; Connection.IsValid 21;
      Connection.Recv 21 1024; Connection.LogInfo]).
Proof.
  split; [reflexivity|].
  destruct (run_loop_ends unquote_model (example_connection 1) 7%nat
              (example_turn [21] [] (Ok EmptyString) id)
              [example_turn [21] [] (Ok ("ping" +:+ chr LF)) id]
              (fresh_locals false) (fresh_locals false)
              [Connection.Select [102; 21] [102; 21] 2;
               Connection.IsValid 21; Connection.Recv 21 1024]
              eq_refl)
    as (H & _).
  apply H. reflexivity.
Defined.

(** ** More on the dispatcher *)

(** X20: [Network.__init__] with every call granted.  The plain listener
    is bound to the loopback address when [local] is set and to all
    interfaces otherwise; an HTTP listener is made, on all interfaces,
    only for a positive HTTP port; the registry starts empty.  When the
    wake pipe cannot be made, no socket is opened at all. *)
Theorem init_listeners
    (local : bool) (port http_port : Z) (pipe : result (Z * Z))
    (env_tcp env_http : TcpServer.start_env) (fds : Z * Z) (a b : Z) :
  let addr := if local then "127.0.0.1" else EmptyString in
  let plain := TcpServer.mk port addr 5 true (Some a) in
  let plain_calls :=
    [Pipe; Socket; Setsockopt a; Bind a addr port; Listen a 5] in
  let made (http : option TcpServer.t) : Network.t :=
    {| Network._notify := {| _recvfd := fds.1; _sendfd := fds.2 |};
       Network._connections := [];
       Network._tcp_server := Some plain;
       Network._http_server := http;
       Network._listening := true |} in
  let out := Network.init local port http_port pipe env_tcp env_http tt in
  starts env_tcp -> TcpServer.socket_answer env_tcp = Ok a ->
  starts env_http -> TcpServer.socket_answer env_http = Ok b ->
  (pipe = Ok fds -> http_port <= 0 ->
   out = (Ok (made None), tt, plain_calls)) /\
  (pipe = Ok fds -> 0 < http_port ->
   out = (Ok (made (Some (TcpServer.mk http_port EmptyString 5 true (Some b)))),
          tt,
          plain_calls ++
          [Socket; Setsockopt b; Bind b EmptyString http_port; Listen b 5])) /\
  (forall e, pipe = Raise e -> out = (Raise e, tt, [Pipe])).
Proof.
  intros addr plain plain_calls made out (_ & Ho & Hb & Hl) Hs
    (_ & Ho' & Hb' & Hl') Hs'.
  destruct env_tcp as [sa oa ba la], env_http as [sa' oa' ba' la'].
  cbn in *. subst. subst out.
  unfold Network.init, Notify_init, on_new, bind, syscall, ret.
  split_and!.
  - intros -> Hp. destruct (Z.gtb_spec http_port 0); [lia|].
    by destruct local.
  - intros -> Hp. destruct (Z.gtb_spec http_port 0); [|lia].
    by destruct local.
  - by intros e ->.
Qed.

Lemma init_listeners_witness :
  let fine (fd : Z) := TcpServer.mk_start_env (Ok fd) (Ok tt) (Ok tt) (Ok tt) in
  starts (fine 5) /\
  trace_of (Network.init true 8888 8080 (Ok (3, 4)) (fine 5) (fine 6) tt) =
    [Pipe; Socket; Setsockopt 5; Bind 5 "127.0.0.1" 8888; Listen 5 5;
     Socket; Setsockopt 6; Bind 6 EmptyString 8080; Listen 6 5] /\
  trace_of (Network.init false 8888 0 (Ok (3, 4)) (fine 5) (fine 6) tt) =
    [Pipe; Socket; Setsockopt 5; Bind 5 EmptyString 8888; Listen 5 5].
Proof.
  assert (Hfine : forall fd,
            starts (TcpServer.mk_start_env (Ok fd) (Ok tt) (Ok tt) (Ok tt))).
  { intros fd. split; [by exists fd|]. repeat split. }
  split; [apply Hfine|].
  split.
  - destruct (init_listeners true 8888 8080 (Ok (3, 4))
                (TcpServer.mk_start_env (Ok 5) (Ok tt) (Ok tt) (Ok tt))
                (TcpServer.mk_start_env (Ok 6) (Ok tt) (Ok tt) (Ok tt))
                (3, 4) 5 6 (Hfine 5) eq_refl (Hfine 6) eq_refl)
      as (_ & H & _).
    by rewrite (H eq_refl ltac:(lia)).
  - destruct (init_listeners false 8888 0 (Ok (3, 4))
                (TcpServer.mk_start_env (Ok 5) (Ok tt) (Ok tt) (Ok tt))
                (TcpServer.mk_start_env (Ok 6) (Ok tt) (Ok tt) (Ok tt))
                (3, 4) 5 6 (Hfine 5) eq_refl (Hfine 6) eq_refl)
      as (H & _).
    by rewrite (H eq_refl ltac:(lia)).
Defined.

(** The two comprehensions of [clean_connections] keep the connections
    whose thread is alive. *)
Lemma clean_filter (alive : Connection.t -> bool)
    (all conns : list Connection.t) :
  (forall c, c ∈ conns -> c ∈ all) ->
  filter (fun c => c ∉ filter (fun c0 => negb (alive c0) = true) all) conns
  = filter (fun c => alive c = true) conns.
Proof.
  induction conns as [|x conns IH]; intros Hsub; [done|].
  assert (Hx : x ∈ all) by (apply Hsub; left).
  assert (IH' := IH (fun c Hc => Hsub c (list_elem_of_further _ _ _ Hc))).
  destruct (alive x) eqn:E.
  - rewrite (filter_cons_True (fun c => alive c = true)) by done.
    rewrite filter_cons_True; [by rewrite IH'|].
    rewrite list_elem_of_filter. intros [H _]. by rewrite E in H.
  - rewrite (filter_cons_False (fun c => alive c = true)) by (by rewrite E).
    rewrite filter_cons_False; [by rewrite IH'|].
    intros H. apply H. rewrite list_elem_of_filter. by rewrite E.
Qed.

(** A turn in which nothing is readable. *)
Lemma run_iteration_on_timeout
    (env : Network.run_env) (w : Network.world) :
  Network.readable env = [] ->
  Network.run_iteration env w =
    (Ok Continue,
     Network.with_net
       (Network.with_connections
          (filter (fun conn => Network.is_alive env conn = true)
                  (Network._connections (Network.net w)))
          (Network.net w)) w,
     [Network.Select 1]).
Proof.
  intros H.
  unfold Network.run_iteration, Network.clean_connections, Network.modify,
    bind, get_self, emit, ret.
  rewrite H. change (len_list [] =? 0) with true. cbv beta iota.
  by rewrite clean_filter.
Qed.

(** X21: a turn of the dispatcher's loop in which [select] times out
    reaps the registry: the connections whose thread is alive stay, in
    their order, the others are dropped; nothing is accepted, and the
    counter, the messages and the queue are not touched. *)
Theorem run_iteration_timeout_reaps
    (env : Network.run_env) (w : Network.world) :
  Network.readable env = [] ->
  Network.run_iteration env w =
    (Ok Continue,
     Network.with_net
       (Network.with_connections
          (filter (fun conn => Network.is_alive env conn = true)
                  (Network._connections (Network.net w)))
          (Network.net w)) w,
     [Network.Select 1]).
Proof. apply run_iteration_on_timeout. Qed.

(** X22: the shutdown notification comes first in the dispatcher too.
    When the wake handle is readable the turn returns from the loop, also
    when a listener is readable in the same turn: nothing is accepted
    and nothing is changed. *)
Theorem run_iteration_shutdown
    (env : Network.run_env) (w : Network.world) :
  notify_fd (Network._notify (Network.net w)) ∈ Network.readable env ->
  Network.run_iteration env w = (Ok Break, w, [Network.Select 1]).
Proof.
  intros H.
  assert (Hne : (len_list (Network.readable env) =? 0) = false).
  { destruct (Network.readable env); [by apply elem_of_nil in H|done]. }
  unfold Network.run_iteration, bind, get_self, emit, ret.
  rewrite Hne. by rewrite (bool_decide_eq_true_2 _ H).
Qed.

Lemma run_iteration_shutdown_witness :
  let env :=
    {| Network.readable := [5; 3; 6];
       Network.accept_answer := fun fd => Ok (30 + fd);
       Network.pipe_answer := Ok (110, 111);
       Network.is_alive := fun _ => true |} in
  notify_fd (Network._notify (Network.net example_world))
  ∈ Network.readable env /\
  Network.run_iteration env example_world
  = (Ok Break, example_world, [Network.Select 1]).
Proof.
  assert (H : 3 ∈ [5; 3; 6]) by (right; left).
  split; [exact H|].
  apply (run_iteration_shutdown
           {| Network.readable := [5; 3; 6];
              Network.accept_answer := fun fd => Ok (30 + fd);
              Network.pipe_answer := Ok (110, 111);
              Network.is_alive := fun _ => true |}
           example_world).
  exact H.
Defined.

Lemma run_iteration_timeout_reaps_witness :
  let env :=
    {| Network.readable := [];
       Network.accept_answer := fun fd => Ok (30 + fd);
       Network.pipe_answer := Ok (110, 111);
       Network.is_alive := fun conn => Connection._id conn =? 2 |} in
  Network.readable env = [] /\
  Network._connections
    (Network.net (state_of (Network.run_iteration env example_world)))
  = [example_connection 2].
Proof.
  split; [reflexivity|].
  rewrite (run_iteration_timeout_reaps
             {| Network.readable := [];
                Network.accept_answer := fun fd => Ok (30 + fd);
                Network.pipe_answer := Ok (110, 111);
                Network.is_alive := fun conn => Connection._id conn =? 2 |}
             example_world eq_refl).
  reflexivity.
Defined.

(** X23: the plain listener readable and no shutdown pending: the
    connection is accepted from the plain listener's socket, tagged as
    plain, given the next identifier and put at the end of the registry,
    also when the HTTP listener is readable in the same turn; the
    messages and the queue are not touched. *)
Theorem run_iteration_plain_ready
    (w : Network.world) (env : Network.run_env)
    (tcp : TcpServer.t) (a c : Z) (fds : Z * Z) :
  Network._tcp_server (Network.net w) = Some tcp ->
  TcpServer._listening tcp = true -> TcpServer._socket tcp = Some a ->
  a ∈ Network.readable env ->
  notify_fd (Network._notify (Network.net w)) ∉ Network.readable env ->
  Network.accept_answer env a = Ok c ->
  Network.pipe_answer env = Ok fds ->
  Network.run_iteration env w =
    (Ok Continue,
     Network.with_ids (Network.ids w + 1)
       (Network.with_net
          (Network.with_connections
             (Network._connections (Network.net w) ++
              [ {| Connection._notify :=
                     {| _recvfd := fds.1; _sendfd := fds.2 |};
                   Connection._socket := {| fileno := c |};
                   Connection._is_http := false;
                   Connection._id := Network.ids w + 1 |} ])
             (Network.net w)) w),
     [Network.Select 1; Network.Sys (Accept a); Network.Sys Pipe;
      Network.LogInfo; Network.ThreadStart (Network.ids w + 1)]).
Proof.
  intros Htcp Hlt Hst Hin Hnot Hacc Hpipe.
  assert (Hne : (len_list (Network.readable env) =? 0) = false).
  { destruct (Network.readable env); [by apply elem_of_nil in Hin|done]. }
  destruct w as [[[nr ns] cs ts hs l] i h q]. cbn in Htcp, Hnot. subst ts.
  destruct tcp as [tp ta tb tl tsock]. cbn in Hlt, Hst. subst.
  destruct env as [rd acc pipe alive]. cbn in Hin, Hnot, Hacc, Hpipe, Hne.
  subst pipe.
  unfold Network.run_iteration, Network.tcp_server_new_socket,
    Network.the_tcp_server, Network.modify, Network.sys, TcpServer.new_socket,
    Connection.init, Notify_init, TcpServer.socket_fd, try_OSError, zoom,
    map_events, bind, get_self, put_self, syscall, emit, raise, ret.
  cbn -[len_list]. rewrite Hne.
  rewrite (bool_decide_eq_false_2 _ Hnot). cbn.
  rewrite (bool_decide_eq_true_2 _ Hin). cbn. rewrite Hacc. by cbn.
Qed.

(** X24: when things go wrong after a listener was found readable.  An
    [accept] that fails with an [OSError] is passed over: the turn ends,
    the loop goes on and nothing has changed.  A failure to make the
    pipe of the new connection is not caught: the exception leaves the
    loop, the accepted socket is in no registry and no identifier was
    used. *)
Theorem run_iteration_accept_failures
    (w : Network.world) (env : Network.run_env)
    (tcp : TcpServer.t) (a : Z) :
  Network._tcp_server (Network.net w) = Some tcp ->
  TcpServer._listening tcp = true -> TcpServer._socket tcp = Some a ->
  a ∈ Network.readable env ->
  notify_fd (Network._notify (Network.net w)) ∉ Network.readable env ->
  (forall k, Network.accept_answer env a = Raise (OSError k) ->
   Network.run_iteration env w
   = (Ok Continue, w, [Network.Select 1; Network.Sys (Accept a)])) /\
  (forall c e,
   Network.accept_answer env a = Ok c ->
   Network.pipe_answer env = Raise e ->
   Network.run_iteration env w
   = (Raise e, w,
      [Network.Select 1; Network.Sys (Accept a); Network.Sys Pipe])).
Proof.
  intros Htcp Hlt Hst Hin Hnot.
  assert (Hne : (len_list (Network.readable env) =? 0) = false).
  { destruct (Network.readable env); [by apply elem_of_nil in Hin|done]. }
  destruct w as [[[nr ns] cs ts hs l] i h q]. cbn in Htcp, Hnot. subst ts.
  destruct tcp as [tp ta tb tl tsock]. cbn in Hlt, Hst. subst.
  destruct env as [rd acc pipe alive]. cbn in Hin, Hnot, Hne.
  unfold Network.run_iteration, Network.tcp_server_new_socket,
    Network.the_tcp_server, Network.modify, Network.sys, TcpServer.new_socket,
    Connection.init, Notify_init, TcpServer.socket_fd, try_OSError, zoom,
    map_events, bind, get_self, put_self, syscall, emit, raise, ret.
  cbn -[len_list]. rewrite Hne.
  rewrite (bool_decide_eq_false_2 _ Hnot). cbn.
  rewrite (bool_decide_eq_true_2 _ Hin). cbn.
  split.
  - intros k Hacc. rewrite Hacc. by cbn.
  - intros c e Hacc Hpipe. rewrite Hacc. cbn. subst pipe. by cbn.
Qed.

Lemma run_iteration_plain_ready_witness :
  let env :=
    {| Network.readable := [6; 5];
       Network.accept_answer := fun fd => Ok (30 + fd);
       Network.pipe_answer := Ok (110, 111);
       Network.is_alive := fun _ => true |} in
  5 ∈ Network.readable env /\
  trace_of (Network.run_iteration env example_world) =
    [Network.Select 1; Network.Sys (Accept 5); Network.Sys Pipe;
     Network.LogInfo; Network.ThreadStart 3].
Proof.
  assert (H : 5 ∈ [6; 5]) by (right; left).
  split; [exact H|].
  rewrite (run_iteration_plain_ready example_world
             {| Network.readable := [6; 5];
                Network.accept_answer := fun fd => Ok (30 + fd);
                Network.pipe_answer := Ok (110, 111);
                Network.is_alive := fun _ => true |}
             example_plain 5 35 (110, 111));
    try reflexivity; [exact H | absent].
Defined.

Lemma run_iteration_accept_failures_witness :
  let env :=
    {| Network.readable := [5];
       Network.accept_answer := fun _ => Raise (OSError 24);
       Network.pipe_answer := Ok (110, 111);
       Network.is_alive := fun _ => true |} in
  5 ∈ Network.readable env /\
  Network.run_iteration env example_world
  = (Ok Continue, example_world,
     [Network.Select 1; Network.Sys (Accept 5)]).
Proof.
  assert (H : 5 ∈ [5]) by left.
  assert (Hnot : 3 ∉ [5]) by absent.
  split; [exact H|].
  destruct (run_iteration_accept_failures example_world
              {| Network.readable := [5];
                 Network.accept_answer := fun _ => Raise (OSError 24);
                 Network.pipe_answer := Ok (110, 111);
                 Network.is_alive := fun _ => true |}
              example_plain 5 eq_refl eq_refl eq_refl H Hnot)
    as [Hfail _].
  apply (Hfail 24). reflexivity.
Defined.

(** What a turn of the dispatcher's loop can do to the registry and to
    the counter: nothing, a reaping, or one connection more. *)
Lemma run_iteration_registry (env : Network.run_env) (w : Network.world) :
  let w' := state_of (Network.run_iteration env w) in
  let conns := Network._connections (Network.net w) in
  let conns' := Network._connections (Network.net w') in
  (Network.ids w' = Network.ids w /\
   (conns' = conns \/
    conns' = filter (fun conn => Network.is_alive env conn = true) conns)) \/
  (Network.ids w' = Network.ids w + 1 /\
   exists conn, conns' = conns ++ [conn] /\
                Connection._id conn = Network.ids w + 1).
Proof.
  destruct (Network.readable env) as [|r rd] eqn:Hrd.
  { cbn zeta. rewrite run_iteration_on_timeout by done. cbn. auto. }
  destruct w as [[[nr ns] cs ts hs l] i h q].
  destruct env as [rd0 acc pipe alive]. cbn in Hrd. subst rd0.
  unfold Network.run_iteration, Network.tcp_server_new_socket,
    Network.the_tcp_server, Network.modify, Network.sys, TcpServer.new_socket,
    Connection.init, Notify_init, TcpServer.socket_fd, try_OSError, zoom,
    map_events, bind, get_self, put_self, syscall, emit, raise, ret, state_of.
  cbn -[len_list].
  change (len_list (r :: rd) =? 0) with false. cbv iota.
  repeat (case_match; cbn; simplify_eq; try by (left; auto)).
  all: try (right; split; [done|]; eexists; split; reflexivity).
Qed.

(** X25: the identifiers of the registry stay different from one
    another and at most the class counter, whatever a turn of the
    dispatcher's loop meets: a timeout, a shutdown, a connection, a
    failure.  It holds of the empty registry the dispatcher starts
    with. *)
Theorem run_iteration_keeps_ids_fresh
    (env : Network.run_env) (w : Network.world) :
  (Network._connections (Network.net w) = [] -> ids_fresh w) /\
  (ids_fresh w -> ids_fresh (state_of (Network.run_iteration env w))).
Proof.
  split.
  { intros H. unfold ids_fresh. rewrite H. split; constructor. }
  intros [Hnd Hle]. unfold ids_fresh.
  destruct (run_iteration_registry env w)
    as [[Hi [Hc|Hc]]|[Hi (conn & Hc & Hid)]];
    cbn zeta in Hi, Hc; rewrite Hi, Hc.
  - done.
  - split.
    + eapply sublist_NoDup; [exact Hnd|].
      apply fmap_sublist, sublist_filter.
    + apply Forall_forall. intros c [_ Hin]%list_elem_of_filter.
      by apply (proj1 (Forall_forall _ _) Hle).
  - split.
    + rewrite fmap_app. apply NoDup_app. split_and!.
      * done.
      * intros x (c & -> & Hin)%list_elem_of_fmap.
        apply (proj1 (Forall_forall _ _) Hle) in Hin.
        cbn. rewrite list_elem_of_singleton. lia.
      * cbn. apply NoDup_singleton.
    + apply Forall_app. split.
      * eapply Forall_impl; [exact Hle|]. cbn. intros. lia.
      * apply Forall_singleton. lia.
Qed.

Lemma run_iteration_keeps_ids_fresh_witness :
  ids_fresh example_world /\
  ids_fresh (state_of (Network.run_iteration example_http_ready example_world)).
Proof.
  assert (H : ids_fresh example_world).
  { split.
    - cbn. apply NoDup_cons. split; [absent|]. apply NoDup_singleton.
    - repeat constructor; cbn; lia. }
  split; [exact H|].
  by apply (run_iteration_keeps_ids_fresh example_http_ready example_world).
Defined.




Lemma new_socket_state (accept_answer : Z -> result Z) (s : TcpServer.t) :
  state_of (TcpServer.new_socket accept_answer s) = s.
Proof.
  unfold TcpServer.new_socket, try_OSError, bind, get_self, syscall, raise,
    ret, state_of.
  destruct s as [p a b [|] [fd|]]; cbn; try done.
  by destruct (accept_answer fd) as [c|[k|x]].
Qed.

(** X27: a server that listens has a socket.  This holds of a new
    server and is kept by [start], whatever the system answers and
    whichever exception comes out of it, and by [new_socket]; a server
    that does not listen answers [-1] for its descriptor. *)
Theorem socket_when_listening_kept
    (port : Z) (addr : string) (backlog : Z)
    (env : TcpServer.start_env) (accept_answer : Z -> result Z)
    (s : TcpServer.t) :
  socket_when_listening (TcpServer.init port addr backlog) /\
  (socket_when_listening s ->
   socket_when_listening (state_of (TcpServer.start env s))) /\
  (socket_when_listening s ->
   socket_when_listening (state_of (TcpServer.new_socket accept_answer s))) /\
  (TcpServer._listening s = false -> TcpServer.socket_fd s = -1).
Proof.
  unfold socket_when_listening. split_and!.
  - cbn. discriminate.
  - intros Hs. destruct (TcpServer._listening s) eqn:Hl.
    + rewrite start_listening by done. intros _. by apply Hs.
    + destruct s as [p a b l sk]. cbn in Hl. subst l.
      destruct env as [[fd|[k|x]] [[]|[k1|x1]] [[]|[k2|x2]] [[]|[k3|x3]]];
        destruct sk; unfold state_of; run_start;
        first [done | intros _; by eexists].
  - intros Hs. by rewrite new_socket_state.
  - intros Hl. unfold TcpServer.socket_fd. by rewrite Hl.
Qed.

Lemma socket_when_listening_kept_witness :
  let in_use :=
    TcpServer.mk_start_env (Ok 7) (Ok tt) (Raise (OSError 98)) (Ok tt) in
  socket_when_listening example_plain /\
  socket_when_listening (state_of (TcpServer.start in_use example_plain)) /\
  socket_when_listening
    (state_of (TcpServer.new_socket (fun fd => Ok (30 + fd)) example_plain)).
Proof.
  assert (H : socket_when_listening example_plain) by (intros _; by eexists).
  split; [exact H|].
  destruct (socket_when_listening_kept 8888 "127.0.0.1" 5
              (TcpServer.mk_start_env (Ok 7) (Ok tt) (Raise (OSError 98)) (Ok tt))
              (fun fd => Ok (30 + fd)) example_plain)
    as (_ & Hstart & Haccept & _).
  split; [by apply Hstart | by apply Haccept].
Defined.
